(** * AnimatedWebP: a verification model of [towebp_english.py]

    The program assembles the PNG files of a folder into an animated WebP
    (through Pillow) or an APNG (through the [apng] package).  Its own logic
    is the validation of the form fields, the toggling of the controls and
    the order and parameters of the library calls.  This file embeds that
    logic: the library calls are recorded as events of a trace and their
    outcome (a value or a raised exception) is read from a [World].  What
    [glob.glob] finds is read from the [World] as well, or computed on a
    [Py.FileSystem] by a model of [glob] and [fnmatch]. *)

From Stdlib Require Import ZArith Lia Ascii String DecimalString.
From stdpp Require Import base decidable option list sorting strings gmap.

Local Open Scope string_scope.
Local Open Scope Z_scope.

(** Strings are joined with [+:+]; [++] is kept for lists. *)
#[local] Disable Notation "_ ++ _" : string_scope.

(** ** Exceptions

    Every value of [exn] is an instance of a subclass of Python's
    [Exception]: the ones the program raises itself, the ones the
    interpreter raises in the expressions the program evaluates, and
    [Propagated e] for an exception [e] raised inside a library call. *)

Record PyException := { exc_class : string; exc_str : string }.

Inductive exn :=
| FileNotFoundError (msg : string)
| ValueError (msg : string)
| IndexError (msg : string)
| OverflowError (msg : string)
| ZeroDivisionError (msg : string)
| Propagated (e : PyException).

(** [str(e)] *)
Definition str (e : exn) : string :=
  match e with
  | FileNotFoundError msg | ValueError msg | IndexError msg
  | OverflowError msg | ZeroDivisionError msg => msg
  | Propagated e => exc_str e
  end.

(** ** Python primitives used by the program *)

Module Py.

(** A [str] is modelled as a [string] whose characters are the code points
    below 256. *)

(** [str.isspace] on one character: TAB..CR, FS..US, SPACE, NEL, NBSP. *)
Definition isspace (c : ascii) : bool :=
  let n := N_of_ascii c in
  ((9 <=? n) && (n <=? 13) || (28 <=? n) && (n <=? 32) || (n =? 133) || (n =? 160))%N.

Fixpoint lstrip (s : string) : string :=
  match s with
  | String c s' => if isspace c then lstrip s' else s
  | EmptyString => EmptyString
  end.

Definition rstrip (s : string) : string := String.rev (lstrip (String.rev s)).

(** [s.strip()] *)
Definition strip (s : string) : string := rstrip (lstrip s).

(** [s.endswith(suffix)] *)
Definition endswith (s suffix : string) : bool :=
  let n := String.length s in
  let k := String.length suffix in
  (k <=? n)%nat && String.eqb (substring (n - k) k s) suffix.

(** The white space [int(str)] skips on both sides: the ASCII white space
    of C, and NEL and NBSP, which CPython first turns into a space. *)
Definition int_space (c : ascii) : bool :=
  let n := N_of_ascii c in
  ((9 <=? n) && (n <=? 13) || (n =? 32) || (n =? 133) || (n =? 160))%N.

Fixpoint int_lskip (s : string) : string :=
  match s with
  | String c s' => if int_space c then int_lskip s' else s
  | EmptyString => EmptyString
  end.

Definition int_skip (s : string) : string :=
  String.rev (int_lskip (String.rev (int_lskip s))).

Definition digit (c : ascii) : option Z :=
  let n := N_of_ascii c in
  if ((48 <=? n) && (n <=? 57))%N then Some (Z.of_N n - 48) else None.

(** The digits of a decimal literal; single underscores may separate two
    digits.  [sep] says that the next character must be a digit (at the
    start and after an underscore); the count is that of the digits. *)
Fixpoint int_digits (s : string) (acc : Z) (n : nat) (sep : bool) : option (Z * nat) :=
  match s with
  | EmptyString => if sep then None else Some (acc, n)
  | String c s' =>
      if Ascii.eqb c "_"
      then (if sep then None else int_digits s' acc n true)
      else match digit c with
           | Some d => int_digits s' (10 * acc + d) (S n) false
           | None => None
           end
  end.

(** [sys.int_info.default_max_str_digits]: a longer literal is a
    [ValueError] as well. *)
Definition int_max_str_digits : nat := 4300.

Definition int_unsigned (s : string) : option Z :=
  match int_digits s 0 0 true with
  | Some (v, n) => if (n <=? int_max_str_digits)%nat then Some v else None
  | None => None
  end.

(** [int(s)] for a [str] in base 10: [None] stands for [ValueError]. *)
Definition int (s : string) : option Z :=
  match int_skip s with
  | String "+" s' => int_unsigned s'
  | String "-" s' => Z.opp <$> int_unsigned s'
  | s' => int_unsigned s'
  end.

(** [s.upper()] on the ASCII letters, the only ones the program applies
    it to (the format names). *)
Definition upper_char (c : ascii) : ascii :=
  let n := N_of_ascii c in
  if ((97 <=? n) && (n <=? 122))%N then ascii_of_N (n - 32) else c.

Fixpoint upper (s : string) : string :=
  match s with
  | String c s' => String (upper_char c) (upper s')
  | EmptyString => EmptyString
  end.

(** [os.path.join(a, b)] of [posixpath], for two components. *)
Definition path_join (a b : string) : string :=
  if String.prefix "/" b then b
  else if String.eqb a "" || endswith a "/" then a +:+ b
  else a +:+ "/" +:+ b.

(** [sorted] on a list of [str]: ascending in the order of the code
    points, by a merge sort as in CPython. *)
Definition sorted (l : list string) : list string := merge_sort String.le l.

(** A finite [float] (IEEE 754 binary64) with the value
    [mant * 2 ^ expo]. *)
Record float := { mant : Z; expo : Z }.

(** The integer nearest to [n / d] for [0 <= n] and [0 < d], a tie going
    to the even one. *)
Definition round_half_even (n d : Z) : Z :=
  let q := n / d in
  let r := n mod d in
  if 2 * r <? d then q
  else if d <? 2 * r then q + 1
  else if Z.even q then q else q + 1.

(** The exponent [e] of the binary64 nearest to [a / b], [0 < a] and
    [0 < b]: [2^52 <= (a / b) / 2^e < 2^53], and [-1074] when that is
    smaller (the subnormal numbers). *)
Definition float_exponent (a b : Z) : Z :=
  let e0 := Z.log2 a - Z.log2 b - 53 in
  let e := if a * 2 ^ Z.max (- e0) 0 <? 2 ^ 53 * (b * 2 ^ Z.max e0 0)
           then e0 else e0 + 1 in
  Z.max e (-1074).

(** [a / b] on two positive [int]: the quotient rounded correctly, and
    [None] when it is too large for a [float]. *)
Definition truediv_pos (a b : Z) : option float :=
  let e := float_exponent a b in
  let m := round_half_even (a * 2 ^ Z.max (- e) 0) (b * 2 ^ Z.max e 0) in
  if (971 <? e) || (e =? 971) && (2 ^ 53 <=? m) then None
  else Some {| mant := m; expo := e |}.

(** [a / b] on two [int]. *)
Definition truediv (a b : Z) : exn + float :=
  if b =? 0 then inl (ZeroDivisionError "division by zero")
  else if a =? 0 then inr {| mant := 0; expo := 0 |}
  else match truediv_pos (Z.abs a) (Z.abs b) with
       | None => inl (OverflowError "integer division result too large for a float")
       | Some x => inr {| mant := Z.sgn a * Z.sgn b * mant x; expo := expo x |}
       end.

(** [int(x)] on a finite [float]: truncation towards zero. *)
Definition int_of_float (x : float) : Z :=
  if 0 <=? expo x then mant x * 2 ^ expo x
  else Z.quot (mant x) (2 ^ (- expo x)).

(** [os.path.basename(p)] of [posixpath]: what follows the last slash of
    [p]; [rest] is what is left to read and [p] the candidate. *)
Fixpoint basename_from (p rest : string) : string :=
  match rest with
  | EmptyString => p
  | String c rest' => basename_from (if Ascii.eqb c "/" then rest' else p) rest'
  end.

Definition basename (p : string) : string := basename_from p p.

(** [str(n)] of a length, as an f-string formats it. *)
Definition str_len (n : nat) : string := NilZero.string_of_uint (Nat.to_uint n).

(** [glob.has_magic(s)]: one of the characters [*], [?] and [[] occurs
    in [s]. *)
Fixpoint has_magic (s : string) : bool :=
  match s with
  | EmptyString => false
  | String c s' =>
      Ascii.eqb c "*" || Ascii.eqb c "?" || Ascii.eqb c "[" || has_magic s'
  end.

(** [p[:i]] and [p[i:]] for [i = p.rfind('/') + 1]. *)
Fixpoint rsplit (p : string) : string * string :=
  match p with
  | EmptyString => ("", "")
  | String c p' =>
      let (head, tail) := rsplit p' in
      if negb (String.eqb head "") || Ascii.eqb c "/" then (String c head, tail)
      else ("", String c tail)
  end.

(** [s.rstrip('/')] *)
Fixpoint rstrip_slashes (s : string) : string :=
  match s with
  | EmptyString => ""
  | String c s' =>
      let r := rstrip_slashes s' in
      if String.eqb r "" && Ascii.eqb c "/" then "" else String c r
  end.

(** [os.path.split(p)] of [posixpath]: the head loses its trailing slashes
    unless it is made of slashes only. *)
Definition split (p : string) : string * string :=
  let (head, tail) := rsplit p in
  (if String.eqb (rstrip_slashes head) "" then head else rstrip_slashes head, tail).

(** [os.path.dirname(p)] *)
Definition dirname (p : string) : string := (split p).1.

(** *** [fnmatch]

    [fnmatch.translate] turns a pattern into a regular expression: a list
    of pieces that match one character each, and stars.  *)

Inductive matcher :=
| AnyChar                  (* [.], under the flag [s] *)
| Never                    (* [(?!)] *)
| Lit (c : ascii)          (* [re.escape(c)] *)
| Class (stuff : string).  (* [[stuff]] *)

Inductive token := STAR | One (m : matcher).

(** The characters up to the next closing bracket, and what follows it. *)
Fixpoint until_close (r : string) : option (string * string) :=
  match r with
  | EmptyString => None
  | String c r' =>
      if Ascii.eqb c "]" then Some ("", r')
      else match until_close r' with
           | Some (body, rest) => Some (String c body, rest)
           | None => None
           end
  end.

(** [pat[i:j]] for the text [r] after an opening bracket: [j] skips a
    leading [!], then a leading closing bracket, and stops at the next
    closing bracket; [None] when there is none. *)
Definition bracket (r : string) : option string :=
  let (bang, r1) := match r with
                    | String "!" r' => ("!", r')
                    | _ => ("", r)
                    end in
  let (close, r2) := match r1 with
                     | String "]" r' => ("]", r')
                     | _ => ("", r1)
                     end in
  match until_close r2 with
  | Some (body, _) => Some (bang +:+ close +:+ body)
  | None => None
  end.

(** The chunks of a bracket expression: it is cut at its hyphens, but
    not at one among the first [skip] characters read (the first
    character, or two after [!], and the two after a cut). *)
Fixpoint chunks_from (skip : nat) (chunk stuff : string) : list string :=
  match stuff with
  | EmptyString => [chunk]
  | String c stuff' =>
      match skip with
      | O => if Ascii.eqb c "-" then chunk :: chunks_from 2 "" stuff'
             else chunks_from 0 (chunk +:+ String c "") stuff'
      | S skip' => chunks_from skip' (chunk +:+ String c "") stuff'
      end
  end.

(** An empty last chunk is a hyphen at the end: it goes to the chunk
    before. *)
Fixpoint close_chunks (chunks : list string) : list string :=
  match chunks with
  | [chunk; ""] => [chunk +:+ "-"]
  | chunk :: chunks' => chunk :: close_chunks chunks'
  | [] => []
  end.

Fixpoint last_char (s : string) : option ascii :=
  match s with
  | EmptyString => None
  | String c "" => Some c
  | String _ s' => last_char s'
  end.

Fixpoint but_last (s : string) : string :=
  match s with
  | EmptyString | String _ "" => ""
  | String c s' => String c (but_last s')
  end.

Definition but_first (s : string) : string :=
  match s with
  | EmptyString => ""
  | String _ s' => s'
  end.

(** The empty ranges are removed, from the last to the first: where a
    chunk ends above the start of the next one, both characters go and
    the chunks are joined. *)
Fixpoint remove_empty_ranges (chunks : list string) : list string :=
  match chunks with
  | [] => []
  | chunk :: chunks' =>
      match remove_empty_ranges chunks' with
      | [] => [chunk]
      | next :: rest =>
          match last_char chunk, next with
          | Some hi, String lo _ =>
              if (N_of_ascii lo <? N_of_ascii hi)%N
              then (but_last chunk +:+ but_first next) :: rest
              else chunk :: next :: rest
          | _, _ => chunk :: next :: rest
          end
      end
  end.

(** [s.replace('\\', r'\\').replace('-', r'\-')] *)
Fixpoint escape_chunk (s : string) : string :=
  match s with
  | EmptyString => ""
  | String c s' =>
      if Ascii.eqb c "\" || Ascii.eqb c "-" then String "\" (String c (escape_chunk s'))
      else String c (escape_chunk s')
  end.

(** ['-'.join(chunks)] *)
Fixpoint join_hyphen (chunks : list string) : string :=
  match chunks with
  | [] => ""
  | [chunk] => chunk
  | chunk :: chunks' => chunk +:+ "-" +:+ join_hyphen chunks'
  end.

(** [re.sub(r'([&~|])', r'\\\1', stuff)] *)
Fixpoint escape_set_operations (s : string) : string :=
  match s with
  | EmptyString => ""
  | String c s' =>
      if Ascii.eqb c "&" || Ascii.eqb c "~" || Ascii.eqb c "|"
      then String "\" (String c (escape_set_operations s'))
      else String c (escape_set_operations s')
  end.

(** The piece for a bracket expression with the text [stuff]. *)
Definition bracket_matcher (stuff : string) : matcher :=
  let chunks :=
    remove_empty_ranges
      (close_chunks (chunks_from (if String.prefix "!" stuff then 2 else 1) "" stuff)) in
  let stuff := escape_set_operations (join_hyphen (map escape_chunk chunks)) in
  match stuff with
  | "" => Never
  | "!" => AnyChar
  | String "!" stuff' => Class (String "^" stuff')
  | String "^" _ | String "[" _ => Class (String "\" stuff)
  | _ => Class stuff
  end.

(** The first pass of [translate]: [skip] characters of [pat] belong to a
    bracket expression that is translated already, [star] says that the
    last token is a star. *)
Fixpoint tokens (skip : nat) (star : bool) (pat : string) : list token :=
  match pat with
  | EmptyString => []
  | String c pat' =>
      match skip with
      | S skip' => tokens skip' star pat'
      | O =>
          if Ascii.eqb c "*" then
            (if star then tokens 0 true pat' else STAR :: tokens 0 true pat')
          else if Ascii.eqb c "?" then One AnyChar :: tokens 0 false pat'
          else if Ascii.eqb c "[" then
            match bracket pat' with
            | None => One (Lit "[") :: tokens 0 false pat'
            | Some stuff =>
                One (bracket_matcher stuff)
                  :: tokens (S (String.length stuff)) false pat'
            end
          else One (Lit c) :: tokens 0 false pat'
      end
  end.

(** The second pass: the fixed pieces before the first star, and those
    after every star. *)
Fixpoint fixed_pieces (inp : list token) : list (list matcher) :=
  match inp with
  | [] => [[]]
  | STAR :: inp' => [] :: fixed_pieces inp'
  | One m :: inp' =>
      match fixed_pieces inp' with
      | fixed :: rest => (m :: fixed) :: rest
      | [] => [[m]]
      end
  end.

(** A character class of [re], read from its text: [\c] is the character
    [c], and [a-b] a range unless the hyphen is the last character. *)
Definition in_range (lo hi x : ascii) : bool :=
  ((N_of_ascii lo <=? N_of_ascii x) && (N_of_ascii x <=? N_of_ascii hi))%N.

Fixpoint class_member (x : ascii) (text : string) : bool :=
  match text with
  | EmptyString => false
  | String "\" (String lo text1) | String lo text1 =>
      match text1 with
      | String "-" EmptyString => Ascii.eqb x lo || Ascii.eqb x "-"
      | String "-" (String "\" (String hi text2)) | String "-" (String hi text2) =>
          in_range lo hi x || class_member x text2
      | _ => Ascii.eqb x lo || class_member x text1
      end
  end.

Definition matches (m : matcher) (x : ascii) : bool :=
  match m with
  | AnyChar => true
  | Never => false
  | Lit c => Ascii.eqb x c
  | Class (String "^" text) => negb (class_member x text)
  | Class text => class_member x text
  end.

(** [fixed] matched at the start of [s]: what is left of [s]. *)
Fixpoint fixed_at (fixed : list matcher) (s : string) : option string :=
  match fixed, s with
  | [], _ => Some s
  | m :: fixed', String c s' => if matches m c then fixed_at fixed' s' else None
  | _ :: _, EmptyString => None
  end.

(** [(?>.*?fixed)]: the first place where [fixed] matches, for good. *)
Fixpoint find_fixed (fixed : list matcher) (s : string) : option string :=
  match fixed_at fixed s with
  | Some rest => Some rest
  | None =>
      match s with
      | String _ s' => find_fixed fixed s'
      | EmptyString => None
      end
  end.

(** [.*fixed\Z]: [fixed] matches the end of [s]. *)
Definition ends_fixed (fixed : list matcher) (s : string) : bool :=
  let n := String.length s in
  let k := List.length fixed in
  (k <=? n)%nat &&
  match fixed_at fixed (substring (n - k) k s) with
  | Some rest => String.eqb rest ""
  | None => false
  end.

Fixpoint match_stars (pieces : list (list matcher)) (s : string) : bool :=
  match pieces with
  | [] => String.eqb s ""
  | [fixed] => ends_fixed fixed s
  | fixed :: pieces' =>
      match find_fixed fixed s with
      | Some rest => match_stars pieces' rest
      | None => false
      end
  end.

(** [fnmatch.fnmatchcase(name, pat)] *)
Definition fnmatchcase (name pat : string) : bool :=
  match fixed_pieces (tokens 0 false pat) with
  | [] => false
  | fixed :: pieces =>
      match fixed_at fixed name with
      | Some rest => match_stars pieces rest
      | None => false
      end
  end.

(** [fnmatch.filter(names, pat)]; [os.path.normcase] changes nothing. *)
Definition fnmatch_filter (names : list string) (pat : string) : list string :=
  List.filter (fun name => fnmatchcase name pat) names.

(** *** [glob]

    What [glob] asks the system: [os.scandir(path)] gives the names in a
    directory, each with [is_dir()], and [None] stands for [OSError];
    [os.path.lexists] and [os.path.isdir].  A name is never empty. *)
Record FileSystem := {
  scandir : string -> option (list (string * bool));
  lexists : string -> bool;
  isdir : string -> bool
}.

(** [glob._ishidden(path)] *)
Definition ishidden (path : string) : bool := String.prefix "." path.

(** [glob._join(dirname, basename)] *)
Definition glob_join (dirname basename : string) : string :=
  if String.eqb dirname "" || String.eqb basename ""
  then (if String.eqb dirname "" then basename else dirname)
  else path_join dirname basename.

(** [glob._listdir(dirname, None, dironly)]: the empty name stands for
    the current directory, and a directory that cannot be read has no
    names. *)
Definition listdir (fs : FileSystem) (dirname : string) (dironly : bool) : list string :=
  match scandir fs (if String.eqb dirname "" then "." else dirname) with
  | Some entries =>
      map fst (List.filter (fun entry : string * bool => negb dironly || entry.2) entries)
  | None => []
  end.

(** [glob._glob1(dirname, pattern, None, dironly)] *)
Definition glob1 (fs : FileSystem) (dirname pattern : string) (dironly : bool)
  : list string :=
  let names := listdir fs dirname dironly in
  let names := if ishidden pattern then names
               else List.filter (fun x => negb (ishidden x)) names in
  fnmatch_filter names pattern.

(** [glob._glob0(dirname, basename, None, dironly)] *)
Definition glob0 (fs : FileSystem) (dirname basename : string) (dironly : bool)
  : list string :=
  if negb (String.eqb basename "")
  then (if lexists fs (glob_join dirname basename) then [basename] else [])
  else (if isdir fs dirname then [basename] else []).

(** [glob._iglob(pathname, '', None, False, dironly)]; the call on the
    dirname is on a shorter path, and [fuel] counts these calls. *)
Fixpoint iglob (fuel : nat) (fs : FileSystem) (pathname : string) (dironly : bool)
  : list string :=
  match fuel with
  | O => []
  | S fuel' =>
      let (dirname, basename) := split pathname in
      if negb (has_magic pathname) then
        if negb (String.eqb basename "")
        then (if lexists fs (glob_join "" pathname) then [pathname] else [])
        else (if isdir fs (glob_join "" dirname) then [pathname] else [])
      else if String.eqb dirname "" then glob1 fs "" basename dironly
      else
        let dirs := if negb (String.eqb dirname pathname) && has_magic dirname
                    then iglob fuel' fs dirname true
                    else [dirname] in
        let glob_in_dir := if has_magic basename then glob1 else glob0 in
        flat_map (fun dirname =>
                    map (path_join dirname)
                        (glob_in_dir fs (glob_join "" dirname) basename dironly))
                 dirs
  end.

(** [glob.glob(pathname)]: for the empty path, an empty first result is
    dropped. *)
Definition glob (fs : FileSystem) (pathname : string) : list string :=
  let paths := iglob (S (String.length pathname)) fs pathname false in
  if String.eqb pathname "" then
    match paths with
    | "" :: paths' => paths'
    | _ => paths
    end
  else paths.

End Py.

(** ** Values, library objects and the trace of a run *)

(** Values held by an image's [info] dictionary. *)
Inductive pyval :=
| PyStr (s : string)
| PyInt (z : Z)
| PyBool (b : bool).

(** A Pillow image as the program sees it: the file it was opened from,
    its mode and its [info] dictionary. *)
Record Image := { filename : string; mode : string; info : gmap string pyval }.

(** Values of the keyword arguments of [Image.save]. *)
Inductive kwval :=
| KwStr (s : string)
| KwInt (z : Z)
| KwBool (b : bool)
| KwImages (l : list Image).

(** An [apng.APNG] object: its frames in order, each the file it was read
    from and the [delay] it was appended with. *)
Definition APNG := list (string * Z).

Record ConversionThread := {
  ct_output_file : string;
  ct_input_folder : string;
  ct_format_type : string;
  ct_delay : Z;
  ct_quality : Z;
  ct_lossless : bool
}.

Record ToastMessage := { message : string; duration : Z; toast_type : string }.

(** What a run does to the world outside the program, in order. *)
Inductive event :=
| Print (line : string)
| ImageOpen (png_file : string)
| ImageSave (first : Image) (output_file : string) (save_params : gmap string kwval)
| ApngAppendFile (png_file : string) (delay : Z)
| ApngSave (frames : APNG) (output_file : string)
| Emit (success : bool) (error : string)
| ShowToast (t : ToastMessage)
| ThreadStart (t : ConversionThread).

(** The part of the world the program reads: the paths [glob.glob] finds
    for a pattern, in the order it returns them, and for each library call
    whether it raises.  The program sees a folder through [glob] only;
    [world_on] below runs the [glob] of [Py] on a file system. *)
Record World := {
  glob : string -> list string;
  Image_open : string -> PyException + gmap string pyval;
  Image_save : Image -> string -> gmap string kwval -> option PyException;
  APNG_append_file : string -> Z -> option PyException;
  APNG_save : APNG -> string -> option PyException
}.

(** ** Computations: a trace and a value or a raised exception *)

Definition M (A : Type) : Type := list event * (exn + A).

Definition ret {A} (a : A) : M A := ([], inr a).

Definition raise {A} (e : exn) : M A := ([], inl e).

Definition bind {A B} (m : M A) (f : A -> M B) : M B :=
  match m with
  | (t, inl e) => (t, inl e)
  | (t, inr a) => let (t', r) := f a in ((t ++ t')%list, r)
  end.

Definition tell (ev : event) : M unit := ([ev], inr tt).

(** [try: body except Exception as e: handler(e)] *)
Definition try_except {A} (body : M A) (handler : exn -> M A) : M A :=
  match body with
  | (t, inl e) => let (t', r) := handler e in ((t ++ t')%list, r)
  | (t, inr a) => (t, inr a)
  end.

Definition is_ValueError (e : exn) : bool :=
  match e with ValueError _ => true | _ => false end.

(** [try: body except ValueError: handler] *)
Definition try_except_ValueError {A} (body : M A) (handler : M A) : M A :=
  match body with
  | (t, inl e) =>
      if is_ValueError e then let (t', r) := handler in ((t ++ t')%list, r)
      else (t, inl e)
  | (t, inr a) => (t, inr a)
  end.

(** A library call: the event, then the outcome the world gives. *)
Definition call {A} (ev : event) (outcome : PyException + A) : M A :=
  (ev :: nil, match outcome with inl e => inl (Propagated e) | inr a => inr a end).

Definition call_ (ev : event) (outcome : option PyException) : M unit :=
  call ev (match outcome with Some e => inl e | None => inr tt end).

Definition lift {A} (r : exn + A) : M A := ([], r).

Notation "'do' x <- m ; k" := (bind m (fun x => k))
  (at level 10, x name, m at level 100, k at level 200).

Arguments bind : simpl never.
Arguments try_except : simpl never.
Arguments try_except_ValueError : simpl never.

Definition trace {A} (m : M A) : list event := fst m.
Definition result {A} (m : M A) : exn + A := snd m.

(** ** The conversion functions *)

Definition no_png_message (input_folder : string) : string :=
  "No PNG files found, please check the " +:+ input_folder +:+ " folder.".

(** The loop of [create_webp] from index [i] on: each file is opened and
    converted to RGBA; every image but the first gets the delay as its
    [info["duration"]]. *)
Fixpoint load_images (w : World) (delay : Z) (i : nat) (png_files : list string)
  : M (list Image) :=
  match png_files with
  | [] => ret []
  | png_file :: rest =>
      do opened <- call (ImageOpen png_file) (Image_open w png_file) ;
      let img := {| filename := png_file; mode := "RGBA";
                    info := if (0 <? i)%nat
                            then <["duration" := PyInt delay]> opened
                            else opened |} in
      do images <- load_images w delay (S i) rest ;
      ret (img :: images)
  end.

Definition webp_save_params (images : list Image) (delay quality : Z) (lossless : bool)
  : gmap string kwval :=
  let save_params : gmap string kwval :=
    <["format" := KwStr "WEBP"]>
    (<["save_all" := KwBool true]>
    (<["append_images" := KwImages (tail images)]>
    (<["duration" := KwInt delay]>
    (<["loop" := KwInt 0]>
    (<["lossless" := KwBool lossless]> ∅))))) in
  if negb lossless then <["quality" := KwInt quality]> save_params else save_params.

Definition create_webp (w : World) (output_file input_folder : string)
    (delay quality : Z) (lossless : bool) : M unit :=
  do _ <- tell (Print ("Starting to create WebP: Output file=" +:+ output_file
                  +:+ ", Input folder=" +:+ input_folder)) ;
  let png_files := Py.sorted (glob w (Py.path_join input_folder "*.png")) in
  match png_files with
  | [] => raise (FileNotFoundError (no_png_message input_folder))
  | _ =>
      do images <- load_images w delay 0 png_files ;
      let save_params := webp_save_params images delay quality lossless in
      match images with
      | [] => raise (IndexError "list index out of range")
      | first :: _ =>
          call_ (ImageSave first output_file save_params)
                (Image_save w first output_file save_params)
      end
  end.

(** The loop of [create_apng]: each file is appended to the object with
    [int(delay / 10)] as its delay. *)
Fixpoint append_files (w : World) (delay : Z) (apng_obj : APNG) (png_files : list string)
  : M APNG :=
  match png_files with
  | [] => ret apng_obj
  | png_file :: rest =>
      do x <- lift (Py.truediv delay 10) ;
      let cs := Py.int_of_float x in
      do _ <- call_ (ApngAppendFile png_file cs) (APNG_append_file w png_file cs) ;
      do _ <- tell (Print ("Frame added: " +:+ png_file)) ;
      append_files w delay (apng_obj ++ [(png_file, cs)])%list rest
  end.

Definition create_apng (w : World) (output_file input_folder : string) (delay : Z)
  : M unit :=
  let apng_obj : APNG := [] in
  let png_files := Py.sorted (glob w (Py.path_join input_folder "*.png")) in
  match png_files with
  | [] => raise (FileNotFoundError (no_png_message input_folder))
  | _ =>
      do apng_obj <- append_files w delay apng_obj png_files ;
      do _ <- call_ (ApngSave apng_obj output_file) (APNG_save w apng_obj output_file) ;
      tell (Print ("APNG file saved as " +:+ output_file))
  end.

(** ** The worker thread *)

Definition run (w : World) (self : ConversionThread) : M unit :=
  try_except
    (do _ <- (if String.eqb (ct_format_type self) "webp" then
           create_webp w (ct_output_file self) (ct_input_folder self)
                       (ct_delay self) (ct_quality self) (ct_lossless self)
         else if String.eqb (ct_format_type self) "apng" then
           create_apng w (ct_output_file self) (ct_input_folder self) (ct_delay self)
         else ret tt) ;
     tell (Emit true ""))
    (fun e => tell (Emit false (str e))).

(** ** The window *)

Inductive FormatButton := webp_radio | apng_radio.
Inductive CompressionButton := lossy_radio | lossless_radio.

Definition format_text (b : FormatButton) : string :=
  match b with webp_radio => "WebP" | apng_radio => "APNG" end.

Definition compression_text (b : CompressionButton) : string :=
  match b with lossy_radio => "Lossy Mode" | lossless_radio => "Lossless Mode" end.

Inductive Policy := Fixed | Expanding.

(** The state of [WebPConverterApp] that its handlers read or write: the
    folder, the current toast, the texts of the three entries, the checked
    button of each group, which frames are visible, the size policy of the
    delay frame, the stretch factors of the two rows and the thread. *)
Record App := {
  input_folder : option string;
  toast : option ToastMessage;
  output_entry : string;
  delay_entry : string;
  quality_entry : string;
  format_checked : FormatButton;
  compression_checked : CompressionButton;
  quality_frame_visible : bool;
  compression_section_visible : bool;
  delay_frame_policy : Policy * Policy;
  format_and_compression_stretch : nat * nat;
  quality_and_delay_stretch : nat * nat;
  thread : option ConversionThread
}.

Definition set_toast (self : App) (t : ToastMessage) : App :=
  {| input_folder := input_folder self; toast := Some t;
     output_entry := output_entry self; delay_entry := delay_entry self;
     quality_entry := quality_entry self; format_checked := format_checked self;
     compression_checked := compression_checked self;
     quality_frame_visible := quality_frame_visible self;
     compression_section_visible := compression_section_visible self;
     delay_frame_policy := delay_frame_policy self;
     format_and_compression_stretch := format_and_compression_stretch self;
     quality_and_delay_stretch := quality_and_delay_stretch self;
     thread := thread self |}.

Definition set_thread (self : App) (t : ConversionThread) : App :=
  {| input_folder := input_folder self; toast := toast self;
     output_entry := output_entry self; delay_entry := delay_entry self;
     quality_entry := quality_entry self; format_checked := format_checked self;
     compression_checked := compression_checked self;
     quality_frame_visible := quality_frame_visible self;
     compression_section_visible := compression_section_visible self;
     delay_frame_policy := delay_frame_policy self;
     format_and_compression_stretch := format_and_compression_stretch self;
     quality_and_delay_stretch := quality_and_delay_stretch self;
     thread := Some t |}.

(** [show_toast(parent, message, duration, toast_type)]: the new toast is
    shown and becomes the toast of the window; the one it replaces is
    hidden, so the window shows the toast of its field only. *)
Definition show_toast (parent : App) (message : string) (duration : Z)
    (toast_type : string) : M App :=
  let t := {| message := message; duration := duration; toast_type := toast_type |} in
  do _ <- tell (ShowToast t) ;
  ret (set_toast parent t).

Definition toggle_compression (self : App) : App :=
  let lossy := String.eqb (compression_text (compression_checked self)) "Lossy Mode" in
  {| input_folder := input_folder self; toast := toast self;
     output_entry := output_entry self; delay_entry := delay_entry self;
     quality_entry := quality_entry self; format_checked := format_checked self;
     compression_checked := compression_checked self;
     quality_frame_visible := lossy;
     compression_section_visible := compression_section_visible self;
     delay_frame_policy := if lossy then (Fixed, Fixed) else (Expanding, Fixed);
     format_and_compression_stretch := format_and_compression_stretch self;
     quality_and_delay_stretch := quality_and_delay_stretch self;
     thread := thread self |}.

Definition toggle_format (self : App) : App :=
  if String.eqb (format_text (format_checked self)) "WebP" then
    {| input_folder := input_folder self; toast := toast self;
       output_entry := "output.webp"; delay_entry := delay_entry self;
       quality_entry := quality_entry self; format_checked := format_checked self;
       compression_checked := compression_checked self;
       quality_frame_visible := true;
       compression_section_visible := true;
       delay_frame_policy := delay_frame_policy self;
       format_and_compression_stretch := (1, 1)%nat;
       quality_and_delay_stretch := (1, 1)%nat;
       thread := thread self |}
  else
    {| input_folder := input_folder self; toast := toast self;
       output_entry := "output.png"; delay_entry := delay_entry self;
       quality_entry := quality_entry self; format_checked := format_checked self;
       compression_checked := compression_checked self;
       quality_frame_visible := false;
       compression_section_visible := false;
       delay_frame_policy := (Expanding, Fixed);
       format_and_compression_stretch := format_and_compression_stretch self;
       quality_and_delay_stretch := quality_and_delay_stretch self;
       thread := thread self |}.

(** [int(text)] as a computation: [ValueError] when the text is no decimal
    literal.  The program never reads the message. *)
Definition int_ (text : string) : M Z :=
  match Py.int text with
  | Some z => ret z
  | None => raise (ValueError ("invalid literal for int() with base 10: " +:+ text))
  end.

(** [not self.input_folder] is false for a non-empty path only. *)
Definition folder_selected (folder : option string) : option string :=
  match folder with
  | Some path => if String.eqb path "" then None else Some path
  | None => None
  end.

(** The body of the first [try] of [convert_images]. *)
Definition frame_delay (text : string) : M Z :=
  do fps <- int_ text ;
  do _ <- (if fps <=? 0 then raise (ValueError "") else ret tt) ;
  do x <- lift (Py.truediv 1000 fps) ;
  ret (Py.int_of_float x).

(** The body of the second [try] of [convert_images]. *)
Definition image_quality (text : string) : M Z :=
  do quality <- int_ text ;
  do _ <- (if (quality <? 0) || (100 <? quality) then raise (ValueError "") else ret tt) ;
  ret quality.

(** [convert_images]: [inl] in the two [try] results stands for the
    [return] of the handler. *)
Definition convert_images (self : App) : M App :=
  match folder_selected (input_folder self) with
  | None =>
      show_toast self "Please select a folder containing PNG files first" 3000 "error"
  | Some folder =>
      let output_file := Py.strip (output_entry self) in
      let format_type :=
        if String.eqb (format_text (format_checked self)) "WebP" then "webp" else "apng" in
      do r <- try_except_ValueError
                (do delay <- frame_delay (delay_entry self) ; ret (inr delay))
                (do s <- show_toast self "Frame rate must be a positive integer" 3000 "error" ;
                 ret (inl s)) ;
      match r with
      | inl s => ret s
      | inr delay =>
          if String.eqb format_type "webp" && negb (Py.endswith output_file ".webp") then
            show_toast self "Output file name must end with .webp" 3000 "error"
          else if String.eqb format_type "apng" && negb (Py.endswith output_file ".png") then
            show_toast self "Output file name must end with .png" 3000 "error"
          else
            let lossless :=
              String.eqb (compression_text (compression_checked self)) "Lossless Mode" in
            do r <- (if negb lossless then
                       try_except_ValueError
                         (do quality <- image_quality (quality_entry self) ; ret (inr quality))
                         (do s <- show_toast self
                                    "Image quality must be an integer between 0 and 100"
                                    3000 "error" ;
                          ret (inl s))
                     else ret (inr 100)) ;
            match r with
            | inl s => ret s
            | inr quality =>
                do self <- show_toast self "Converting..." 0 "progress" ;
                let t := {| ct_output_file := output_file; ct_input_folder := folder;
                            ct_format_type := format_type; ct_delay := delay;
                            ct_quality := quality; ct_lossless := lossless |} in
                do _ <- tell (ThreadStart t) ;
                ret (set_thread self t)
            end
      end
  end.

Definition conversion_finished (self : App) (success : bool) (error : string) : M App :=
  if success then
    let output_file := Py.strip (output_entry self) in
    let format_type :=
      if String.eqb (format_text (format_checked self)) "WebP" then "webp" else "apng" in
    show_toast self (Py.upper format_type +:+ " animation saved as " +:+ output_file)
               3000 "success"
  else
    show_toast self ("Conversion failed: " +:+ error) 3000 "error".

Definition error_toast (message : string) : ToastMessage :=
  {| message := message; duration := 3000; toast_type := "error" |}.

Definition progress_toast : ToastMessage :=
  {| message := "Converting..."; duration := 0; toast_type := "progress" |}.

(** The toasts shown and the threads started along a trace. *)
Definition toasts (tr : list event) : list ToastMessage :=
  omap (fun ev => match ev with ShowToast t => Some t | _ => None end) tr.

Definition threads_started (tr : list event) : list ConversionThread :=
  omap (fun ev => match ev with ThreadStart t => Some t | _ => None end) tr.

(** The signals emitted along a trace. *)
Definition emitted (tr : list event) : list (bool * string) :=
  omap (fun ev => match ev with Emit b s => Some (b, s) | _ => None end) tr.

(** The delays of the frames appended to an APNG object along a trace. *)
Definition apng_delays (tr : list event) : list Z :=
  omap (fun ev => match ev with ApngAppendFile _ cs => Some cs | _ => None end) tr.


(** What the [apng] package makes of [append_file(png_file, delay=n)]: the
    keyword arguments go to the [FrameControl] of the frame, whose
    [delay_den] has the default 1000, and the frame is shown for
    [delay / delay_den] seconds.  [create_apng] passes [delay] only. *)
Record FrameControl := { fc_delay : Z; fc_delay_den : Z }.

Definition frame_control (delay : Z) : FrameControl :=
  {| fc_delay := delay; fc_delay_den := 1000 |}.

(** The time a frame is shown, in milliseconds (rounded down). *)
Definition milliseconds (fc : FrameControl) : Z :=
  1000 * fc_delay fc / fc_delay_den fc.

(** The frame controls of the frames appended along a trace. *)
Definition frame_controls (tr : list event) : list FrameControl :=
  map frame_control (apng_delays tr).

(** The save calls along a trace. *)
Definition is_save (ev : event) : bool :=
  match ev with ImageSave _ _ _ | ApngSave _ _ => true | _ => false end.

Definition saves (tr : list event) : list event := List.filter is_save tr.

(** The signal [run] emits for an outcome of the conversion function. *)
Definition signal_of (r : exn + unit) : bool * string :=
  match r with
  | inr _ => (true, "")
  | inl e => (false, str e)
  end.

(** The events of the two imaging libraries and of [print]. *)
Definition is_library_event (ev : event) : bool :=
  match ev with
  | Print _ | ImageOpen _ | ImageSave _ _ _ | ApngAppendFile _ _ | ApngSave _ _ => true
  | Emit _ _ | ShowToast _ | ThreadStart _ => false
  end.

(** What the user does to the form: typing into an entry, checking a radio
    button (its [toggled] handler is run apart). *)

Definition set_output_entry (self : App) (text : string) : App :=
  {| input_folder := input_folder self; toast := toast self; output_entry := text;
     delay_entry := delay_entry self; quality_entry := quality_entry self;
     format_checked := format_checked self;
     compression_checked := compression_checked self;
     quality_frame_visible := quality_frame_visible self;
     compression_section_visible := compression_section_visible self;
     delay_frame_policy := delay_frame_policy self;
     format_and_compression_stretch := format_and_compression_stretch self;
     quality_and_delay_stretch := quality_and_delay_stretch self;
     thread := thread self |}.

Definition set_delay_entry (self : App) (text : string) : App :=
  {| input_folder := input_folder self; toast := toast self;
     output_entry := output_entry self; delay_entry := text;
     quality_entry := quality_entry self; format_checked := format_checked self;
     compression_checked := compression_checked self;
     quality_frame_visible := quality_frame_visible self;
     compression_section_visible := compression_section_visible self;
     delay_frame_policy := delay_frame_policy self;
     format_and_compression_stretch := format_and_compression_stretch self;
     quality_and_delay_stretch := quality_and_delay_stretch self;
     thread := thread self |}.

Definition set_quality_entry (self : App) (text : string) : App :=
  {| input_folder := input_folder self; toast := toast self;
     output_entry := output_entry self; delay_entry := delay_entry self;
     quality_entry := text; format_checked := format_checked self;
     compression_checked := compression_checked self;
     quality_frame_visible := quality_frame_visible self;
     compression_section_visible := compression_section_visible self;
     delay_frame_policy := delay_frame_policy self;
     format_and_compression_stretch := format_and_compression_stretch self;
     quality_and_delay_stretch := quality_and_delay_stretch self;
     thread := thread self |}.

Definition set_format_checked (self : App) (button : FormatButton) : App :=
  {| input_folder := input_folder self; toast := toast self;
     output_entry := output_entry self; delay_entry := delay_entry self;
     quality_entry := quality_entry self; format_checked := button;
     compression_checked := compression_checked self;
     quality_frame_visible := quality_frame_visible self;
     compression_section_visible := compression_section_visible self;
     delay_frame_policy := delay_frame_policy self;
     format_and_compression_stretch := format_and_compression_stretch self;
     quality_and_delay_stretch := quality_and_delay_stretch self;
     thread := thread self |}.

Definition set_compression_checked (self : App) (button : CompressionButton) : App :=
  {| input_folder := input_folder self; toast := toast self;
     output_entry := output_entry self; delay_entry := delay_entry self;
     quality_entry := quality_entry self; format_checked := format_checked self;
     compression_checked := button;
     quality_frame_visible := quality_frame_visible self;
     compression_section_visible := compression_section_visible self;
     delay_frame_policy := delay_frame_policy self;
     format_and_compression_stretch := format_and_compression_stretch self;
     quality_and_delay_stretch := quality_and_delay_stretch self;
     thread := thread self |}.

(** ** A sample world and a sample window

    The folder [frames] holds three PNG files and no library call raises;
    the window is the one the program opens, with that folder selected. *)

Definition sample_world : World := {|
  glob pattern :=
    if String.eqb pattern "frames/*.png"
    then ["frames/2.png"; "frames/10.png"; "frames/1.png"] else [];
  Image_open _ := inr ∅;
  Image_save _ _ _ := None;
  APNG_append_file _ _ := None;
  APNG_save _ _ := None
|}.

Definition sample_app : App := {|
  input_folder := Some "frames"; toast := None;
  output_entry := "output.webp"; delay_entry := "24"; quality_entry := "90";
  format_checked := webp_radio; compression_checked := lossy_radio;
  quality_frame_visible := true; compression_section_visible := true;
  delay_frame_policy := (Fixed, Fixed);
  format_and_compression_stretch := (1, 1)%nat;
  quality_and_delay_stretch := (1, 1)%nat;
  thread := None
|}.

(** The sample window after APNG is checked and the output name adjusted. *)
Definition sample_apng_app : App :=
  set_output_entry (set_format_checked sample_app apng_radio) "output.png".

(** ** The folder controls of the window

    The window with the widgets of the folder row and of the preview: the
    form as before, the read-only path entry, the label, and the preview
    image with the file its pixmap was loaded from and whether it is
    shown. *)
Record Window := {
  form : App;
  folder_path : string;
  preview_label : string;
  image_preview : option string;
  image_preview_visible : bool
}.

Definition set_input_folder (self : App) (folder : option string) : App :=
  {| input_folder := folder; toast := toast self;
     output_entry := output_entry self; delay_entry := delay_entry self;
     quality_entry := quality_entry self; format_checked := format_checked self;
     compression_checked := compression_checked self;
     quality_frame_visible := quality_frame_visible self;
     compression_section_visible := compression_section_visible self;
     delay_frame_policy := delay_frame_policy self;
     format_and_compression_stretch := format_and_compression_stretch self;
     quality_and_delay_stretch := quality_and_delay_stretch self;
     thread := thread self |}.

Definition newline : string := String "010" EmptyString.

(** What [select_folder] and [dropEvent] both do with an accepted folder:
    the folder is stored and shown, its PNG files are counted, and the
    first of the sorted listing becomes the preview; with no PNG file the
    preview is hidden and keeps its pixmap. *)
Definition show_folder (w : World) (self : Window) (path : string) : Window :=
  let png_files := Py.sorted (glob w (Py.path_join path "*.png")) in
  let png_count := length png_files in
  let label := "Folder: " +:+ Py.basename path +:+ newline
               +:+ "Found " +:+ Py.str_len png_count +:+ " PNG files" in
  match png_files with
  | first :: _ =>
      {| form := set_input_folder (form self) (Some path); folder_path := path;
         preview_label := label; image_preview := Some first;
         image_preview_visible := true |}
  | [] =>
      {| form := set_input_folder (form self) (Some path); folder_path := path;
         preview_label := label; image_preview := image_preview self;
         image_preview_visible := false |}
  end.

(** [select_folder], [folder_selected] being what the dialog returns: the
    empty string when it is cancelled. *)
Definition select_folder (w : World) (self : Window) (folder_selected : string) : Window :=
  if String.eqb folder_selected "" then self else show_folder w self folder_selected.

Record MessageBox := { box_title : string; box_text : string }.

(** [dropEvent], [urls] being the local paths of the dropped URLs and
    [isdir] what [os.path.isdir] answers: the loop ends after its first
    round. *)
Definition dropEvent (w : World) (isdir : string -> bool) (self : Window)
    (urls : list string) : Window * list MessageBox :=
  match urls with
  | [] => (self, [])
  | path :: _ =>
      if isdir path then (show_folder w self path, [])
      else (self, [{| box_title := "Error";
                      box_text := "Please drag and drop a folder, not a file" |}])
  end.

Definition clear_folder (self : Window) : Window :=
  {| form := set_input_folder (form self) None; folder_path := "";
     preview_label := "No folder selected"; image_preview := None;
     image_preview_visible := false |}.

(** The slot connected to [conversion_finished], run for each signal in
    turn on the window as it is then. *)
Fixpoint deliver (self : App) (signals : list (bool * string)) : M App :=
  match signals with
  | [] => ret self
  | (success, error) :: rest =>
      do self <- conversion_finished self success error ;
      deliver self rest
  end.

(** The events of the Pillow calls and of the [apng] calls along a trace. *)
Definition is_pillow_event (ev : event) : bool :=
  match ev with ImageOpen _ | ImageSave _ _ _ => true | _ => false end.

Definition is_apng_event (ev : event) : bool :=
  match ev with ApngAppendFile _ _ | ApngSave _ _ => true | _ => false end.

(** The sample world with an unreadable second file: [Image.open] and
    [append_file] raise on [frames/10.png]. *)
Definition unreadable : PyException :=
  {| exc_class := "UnidentifiedImageError"; exc_str := "cannot identify image file" |}.

Definition failing_world : World := {|
  glob := glob sample_world;
  Image_open png_file :=
    if String.eqb png_file "frames/10.png" then inl unreadable else inr ∅;
  Image_save _ _ _ := None;
  APNG_append_file png_file _ :=
    if String.eqb png_file "frames/10.png" then Some unreadable else None;
  APNG_save _ _ := None
|}.

(** ** The folder on a file system *)











(** ** Shorthands for the statements below *)

(** The line [create_webp] prints first. *)
Definition webp_start_line (output_file input_folder : string) : string :=
  "Starting to create WebP: Output file=" +:+ output_file
  +:+ ", Input folder=" +:+ input_folder.

(** One round of the loop of [create_apng] that raises nothing. *)
Definition frame_added (cs : Z) (png_file : string) : list event :=
  [ApngAppendFile png_file cs; Print ("Frame added: " +:+ png_file)].

(** The thread the sample window starts, and the sample window with its
    folder row before any folder is chosen. *)
Definition sample_thread : ConversionThread :=
  {| ct_output_file := "output.webp"; ct_input_folder := "frames";
     ct_format_type := "webp"; ct_delay := 41; ct_quality := 90;
     ct_lossless := false |}.


(** The toast [conversion_finished] shows for the success of a thread: it
    names the format and the output name the window holds then. *)
Definition saved_toast (later : App) : ToastMessage :=
  {| message := Py.upper (match format_checked later with
                          | webp_radio => "webp"
                          | apng_radio => "apng"
                          end)
                +:+ " animation saved as " +:+ Py.strip (output_entry later);
     duration := 3000; toast_type := "success" |}.

(** The toast [conversion_finished] shows for an outcome of the
    conversion function. *)
Definition report_toast (later : App) (outcome : exn + unit) : ToastMessage :=
  match outcome with
  | inr _ => saved_toast later
  | inl e => error_toast ("Conversion failed: " +:+ str e)
  end.

(** * Properties *)

(** ** Traces and results of composed computations *)

Lemma trace_bind {A B} (m : M A) (f : A -> M B) :
  trace (bind m f) =
  (trace m ++ match result m with inr a => trace (f a) | inl _ => [] end)%list.
Proof.
  destruct m as [t [e | a]]; unfold bind; simpl.
  - by rewrite app_nil_r.
  - by destruct (f a).
Qed.

Lemma result_bind {A B} (m : M A) (f : A -> M B) :
  result (bind m f) = match result m with inr a => result (f a) | inl e => inl e end.
Proof.
  destruct m as [t [e | a]]; unfold bind; simpl; [done |]. by destruct (f a).
Qed.

Lemma trace_try_except {A} (body : M A) (handler : exn -> M A) :
  trace (try_except body handler) =
  (trace body ++ match result body with inl e => trace (handler e) | inr _ => [] end)%list.
Proof.
  destruct body as [t [e | a]]; unfold try_except, try_except_ValueError; simpl.
  - by destruct (handler e).
  - by rewrite app_nil_r.
Qed.

Lemma result_try_except {A} (body : M A) (handler : exn -> M A) :
  result (try_except body handler) =
  match result body with inl e => result (handler e) | inr a => inr a end.
Proof.
  destruct body as [t [e | a]]; unfold try_except, try_except_ValueError; simpl; [| done]. by destruct (handler e).
Qed.

Lemma trace_try_except_ValueError {A} (body handler : M A) :
  trace (try_except_ValueError body handler) =
  (trace body ++ match result body with
                 | inl e => if is_ValueError e then trace handler else []
                 | inr _ => []
                 end)%list.
Proof.
  destruct body as [t [e | a]]; unfold try_except, try_except_ValueError; simpl.
  - destruct (is_ValueError e); simpl; [by destruct handler | by rewrite app_nil_r].
  - by rewrite app_nil_r.
Qed.

Lemma result_try_except_ValueError {A} (body handler : M A) :
  result (try_except_ValueError body handler) =
  match result body with
  | inl e => if is_ValueError e then result handler else inl e
  | inr a => inr a
  end.
Proof.
  destruct body as [t [e | a]]; unfold try_except, try_except_ValueError; simpl; [| done].
  destruct (is_ValueError e); simpl; [by destruct handler | done].
Qed.

Lemma omap_app_event {B} (f : event -> option B) (l1 l2 : list event) :
  omap f (l1 ++ l2) = (omap f l1 ++ omap f l2)%list.
Proof. apply omap_app. Qed.

Lemma saves_app (l1 l2 : list event) : saves (l1 ++ l2) = (saves l1 ++ saves l2)%list.
Proof. apply List.filter_app. Qed.

(** A trace of library events holds no signal, toast or thread. *)
Lemma library_trace_emitted (tr : list event) :
  Forall (fun ev => is_library_event ev = true) tr -> emitted tr = [].
Proof.
  induction 1 as [| ev tr Hev _ IH]; [done |].
  destruct ev; simpl in Hev; try discriminate; exact IH.
Qed.

(** ** [sorted] *)


Lemma sorted_Permutation (l : list string) : Py.sorted l ≡ₚ l.
Proof. apply (merge_sort_Permutation String.le). Qed.


Lemma sorted_nil (l : list string) : Py.sorted l = [] <-> l = [].
Proof.
  split; [| by intros ->].
  intros H. apply Permutation_nil_r. by rewrite <- H, sorted_Permutation.
Qed.

(** ** [int(a / b)]: the division of two [int] rounds to a [float], and for
    a dividend below [2^53] the truncation of that [float] is the
    truncated quotient *)

Lemma round_half_even_cases (n d : Z) :
  0 <= n -> 0 < d ->
  Py.round_half_even n d = n / d \/
  (Py.round_half_even n d = n / d + 1 /\ d <= 2 * (n mod d)).
Proof.
  intros Hn Hd. unfold Py.round_half_even.
  destruct (Z.ltb_spec (2 * (n mod d)) d); [left; done |].
  destruct (Z.ltb_spec d (2 * (n mod d))); [right; lia |].
  destruct (Z.even (n / d)); [left; done | right; lia].
Qed.

Lemma float_exponent_range (a b : Z) :
  0 < a < 2 ^ 53 -> 0 < b ->
  let e := Py.float_exponent a b in
  -1074 <= e <= 0 /\
  (2 ^ 52 * b <= a * 2 ^ (- e) \/ a * 2 ^ (- e) < 2 ^ 53 * b /\ e = -1074).
Proof.
  intros [Ha Ha53] Hb. unfold Py.float_exponent.
  pose proof (Z.log2_spec a Ha) as [Hla1 Hla2].
  pose proof (Z.log2_spec b Hb) as [Hlb1 Hlb2].
  pose proof (Z.log2_nonneg a) as Hla0.
  pose proof (Z.log2_nonneg b) as Hlb0.
  assert (Hla : Z.log2 a <= 52).
  { apply Z.lt_succ_r. apply (Z.pow_lt_mono_r_iff 2); [lia | lia |]. 
    replace (Z.succ 52) with 53 by lia. lia. }
  set (e0 := Z.log2 a - Z.log2 b - 53).
  assert (He0 : e0 <= -1) by lia.
  rewrite (Z.max_l (- e0) 0) by lia. rewrite (Z.max_r e0 0) by lia.
  rewrite Z.pow_0_r, Z.mul_1_r.
  (* the quotient scaled by [2^(-e0)] lies between [2^52] and [2^54] *)
  assert (Hlow : 2 ^ 52 * b < a * 2 ^ (- e0)).
  { apply Z.lt_le_trans with (2 ^ 52 * 2 ^ Z.succ (Z.log2 b)); [nia |].
    rewrite <- Z.pow_add_r by lia.
    apply Z.le_trans with (2 ^ Z.log2 a * 2 ^ (- e0)).
    - rewrite <- Z.pow_add_r by lia. apply Z.pow_le_mono_r; lia.
    - apply Z.mul_le_mono_nonneg_r; [apply Z.pow_nonneg; lia | lia]. }
  assert (Hhigh : a * 2 ^ (- e0) < 2 * (2 ^ 53 * b)).
  { apply Z.lt_le_trans with (2 ^ Z.succ (Z.log2 a) * 2 ^ (- e0)).
    - apply Z.mul_lt_mono_pos_r; [apply Z.pow_pos_nonneg; lia | lia].
    - rewrite <- Z.pow_add_r by lia.
      replace (Z.succ (Z.log2 a) + - e0) with (54 + Z.log2 b) by lia.
      rewrite Z.pow_add_r by lia. change (2 ^ 54) with (2 * 2 ^ 53). nia. }
  assert (Hstep : 2 ^ (- e0) = 2 * 2 ^ (- (e0 + 1))).
  { replace (- e0) with (1 + - (e0 + 1)) by lia. rewrite Z.pow_add_r by lia. done. }
  assert (Hmono : forall e, -1074 > e -> e <= 0 -> a * 2 ^ 1074 <= a * 2 ^ (- e)).
  { intros e H1 H2. apply Z.mul_le_mono_nonneg_l; [lia |]. apply Z.pow_le_mono_r; lia. }
  destruct (Z.ltb_spec (a * 2 ^ (- e0)) (2 ^ 53 * b)) as [Hlt | Hge].
  - destruct (Z.max_spec e0 (-1074)) as [[H1 ->] | [H1 ->]].
    + split; [lia |]. right. split; [| done]. specialize (Hmono e0). simpl. lia.
    + split; [lia |]. left. lia.
  - destruct (Z.max_spec (e0 + 1) (-1074)) as [[H1 ->] | [H1 ->]].
    + split; [lia |]. right. split; [| done]. specialize (Hmono (e0 + 1)). simpl. lia.
    + split; [lia |]. left. lia.
Qed.

Lemma truediv_pos_trunc (a b : Z) :
  0 < a < 2 ^ 53 -> 0 < b ->
  exists x, Py.truediv_pos a b = Some x /\ Py.expo x <= 0 /\ 0 <= Py.mant x /\
            Py.mant x / 2 ^ (- Py.expo x) = a / b.
Proof.
  intros Ha Hb. unfold Py.truediv_pos.
  destruct (float_exponent_range a b Ha Hb) as [He Hscale].
  set (e := Py.float_exponent a b) in *.
  rewrite (Z.max_l (- e) 0) by lia. rewrite (Z.max_r e 0) by lia.
  rewrite Z.pow_0_r, Z.mul_1_r.
  replace (971 <? e) with false by (symmetry; apply Z.ltb_ge; lia).
  replace (e =? 971) with false by (symmetry; apply Z.eqb_neq; lia).
  simpl. eexists. split; [reflexivity |]. simpl.
  set (P := 2 ^ (- e)) in *.
  assert (HP : 0 < P) by (apply Z.pow_pos_nonneg; lia).
  set (N := a * P).
  assert (HN : 0 <= N) by nia.
  pose proof (Z.div_mod N b ltac:(lia)) as HNdiv.
  pose proof (Z.mod_pos_bound N b Hb) as Hr.
  pose proof (Z.div_mod a b ltac:(lia)) as Hadiv.
  pose proof (Z.mod_pos_bound a b Hb) as Ht.
  assert (Hk0 : 0 <= a / b) by (apply Z.div_pos; lia).
  assert (Hq0 : 0 <= N / b) by (apply Z.div_pos; lia).
  set (q := N / b) in *. set (r := N mod b) in *.
  set (k := a / b) in *. set (t := a mod b) in *.
  (* the scaled quotient [q] stays within the [P] multiples of [k] *)
  assert (Hq1 : k * P <= q).
  { apply Z.div_le_lower_bound; [lia |]. unfold N. nia. }
  assert (Hq2 : q < (k + 1) * P).
  { apply Z.div_lt_upper_bound; [lia |]. unfold N. nia. }
  split; [lia |].
  destruct (round_half_even_cases N b HN Hb) as [Hm | [Hm Hhalf]];
    fold q in Hm; try fold r in Hhalf; rewrite Hm.
  - split; [lia |]. symmetry. apply (Z.div_unique_pos q P k (q - k * P)); lia.
  - split; [lia |].
    assert (Hq3 : q + 1 < (k + 1) * P).
    { destruct (Z.eq_dec (q + 1) ((k + 1) * P)) as [Heq | Hne]; [exfalso | lia].
      destruct Hscale as [Hnormal | [Hsub He1074]].
      - assert (Hb2 : b < 2 * P).
        { fold N in Hnormal. assert (N < 2 ^ 53 * P) by (unfold N; nia).
          change (2 ^ 53) with (2 * 2 ^ 52) in H. nia. }
        assert (Heq2 : (b - t) * P = b - r).
        { assert (q = (k + 1) * P - 1) as Hq by lia.
          assert (N = (b * k + t) * P) as HN2 by (unfold N; rewrite <- Hadiv; ring).
          rewrite HNdiv, Hq in HN2. lia. }
        assert (P <= b - r) by nia. lia.
      - fold N in Hsub.
        assert (q < 2 ^ 53) by (apply Z.div_lt_upper_bound; lia).
        assert (2 ^ 53 < P).
        { unfold P. rewrite He1074. simpl Z.opp. apply Z.pow_lt_mono_r; lia. }
        nia. }
    symmetry. apply (Z.div_unique_pos (q + 1) P k (q + 1 - k * P)); lia.
Qed.

Lemma int_of_float_nonpos_exponent (m e : Z) :
  e <= 0 -> Py.int_of_float {| Py.mant := m; Py.expo := e |} = m ÷ 2 ^ (- e).
Proof.
  intros He. unfold Py.int_of_float. simpl.
  destruct (Z.leb_spec 0 e); [| done].
  replace e with 0 by lia. simpl. rewrite Z.quot_1_r. lia.
Qed.

Lemma int_truediv_exact (a b : Z) :
  0 < b -> Z.abs a < 2 ^ 53 ->
  exists x, Py.truediv a b = inr x /\ Py.int_of_float x = a ÷ b.
Proof.
  intros Hb Ha. unfold Py.truediv.
  replace (b =? 0) with false by (symmetry; apply Z.eqb_neq; lia).
  destruct (Z.eqb_spec a 0) as [-> | Hne].
  { eexists. split; [reflexivity |]. by rewrite Z.quot_0_l by lia. }
  destruct (truediv_pos_trunc (Z.abs a) (Z.abs b)) as (x & -> & He & Hm & Hdiv);
    [lia | lia |].
  eexists. split; [reflexivity |].
  rewrite int_of_float_nonpos_exponent by done.
  rewrite (Z.abs_eq b) in Hdiv by lia.
  rewrite (Z.sgn_pos b) by lia. rewrite Z.mul_1_r.
  assert (HP : 0 < 2 ^ (- Py.expo x)) by (apply Z.pow_pos_nonneg; lia).
  rewrite <- Z.quot_div_nonneg in Hdiv by lia.
  destruct (Z.lt_trichotomy a 0) as [Hneg | [-> | Hpos]]; [| done |].
  - rewrite (Z.sgn_neg a) by lia. rewrite (Z.abs_neq a) in Hdiv by lia.
    replace (-1 * Py.mant x) with (- Py.mant x) by lia.
    rewrite Z.quot_opp_l by lia. rewrite Hdiv.
    rewrite <- Z.quot_div_nonneg by lia. rewrite Z.quot_opp_l by lia. lia.
  - rewrite (Z.sgn_pos a) by lia. rewrite (Z.abs_eq a) in Hdiv by lia.
    rewrite Z.mul_1_l, Hdiv. by rewrite Z.quot_div_nonneg by lia.
Qed.

(** ** The loops of the conversion functions *)

Lemma trace_call {A} (ev : event) (outcome : PyException + A) :
  trace (call ev outcome) = [ev].
Proof. done. Qed.

Lemma load_images_trace (w : World) (delay : Z) (i : nat) (png_files : list string) :
  Forall (fun ev => exists f, ev = ImageOpen f) (trace (load_images w delay i png_files)).
Proof.
  revert i. induction png_files as [| f rest IH]; intros i; simpl; [constructor |].
  rewrite trace_bind, trace_call. constructor; [by eexists |].
  destruct (Image_open w f) as [e | opened]; simpl; [constructor |].
  rewrite trace_bind. apply Forall_app. split; [apply IH |].
  destruct (result (load_images w delay (S i) rest)); simpl; constructor.
Qed.

Lemma load_images_result (w : World) (delay : Z) (i : nat) (png_files : list string) :
  match result (load_images w delay i png_files) with
  | inr images => map filename images = png_files
  | inl e => exists pe, e = Propagated pe
  end.
Proof.
  revert i. induction png_files as [| f rest IH]; intros i; simpl; [done |].
  rewrite result_bind. unfold call at 1. simpl.
  destruct (Image_open w f) as [e | opened]; simpl; [by eexists |].
  rewrite result_bind. specialize (IH (S i)).
  destruct (result (load_images w delay (S i) rest)) as [e | images]; simpl; [done |].
  by rewrite IH.
Qed.

Lemma load_images_returns (w : World) (delay : Z) (i : nat) (png_files : list string) :
  Forall (fun f => exists opened, Image_open w f = inr opened) png_files ->
  exists images, result (load_images w delay i png_files) = inr images.
Proof.
  intros H. revert i. induction H as [| f rest [opened Hf] _ IH]; intros i; simpl.
  - by eexists.
  - rewrite result_bind. unfold call at 1. simpl. rewrite Hf. simpl.
    rewrite result_bind. destruct (IH (S i)) as [images ->]. by eexists.
Qed.

(** The division by 10 raises [OverflowError] or nothing. *)
Lemma truediv_10_error (delay : Z) (e : exn) :
  Py.truediv delay 10 = inl e -> exists msg, e = OverflowError msg.
Proof.
  unfold Py.truediv. change (10 =? 0) with false. cbv iota.
  destruct (delay =? 0); [done |].
  destruct (Py.truediv_pos (Z.abs delay) (Z.abs 10)); [done |].
  intros [= <-]. by eexists.
Qed.

Lemma append_files_raises (w : World) (delay : Z) (e : exn) (apng_obj : APNG)
    (f : string) (rest : list string) :
  Py.truediv delay 10 = inl e ->
  append_files w delay apng_obj (f :: rest) = ([], inl e).
Proof. intros H. simpl. by rewrite H. Qed.

Lemma append_files_trace (w : World) (delay : Z) (x : Py.float) (apng_obj : APNG)
    (png_files : list string) :
  Py.truediv delay 10 = inr x ->
  Forall (fun ev => (exists f, ev = ApngAppendFile f (Py.int_of_float x)) \/
                    exists line, ev = Print line)
         (trace (append_files w delay apng_obj png_files)).
Proof.
  intros Hx. revert apng_obj.
  induction png_files as [| f rest IH]; intros apng_obj; simpl; [constructor |].
  rewrite Hx. rewrite trace_bind. simpl.
  rewrite trace_bind. unfold call_ at 1. rewrite trace_call. constructor; [left; by eexists |].
  unfold call_, call. simpl.
  destruct (APNG_append_file w f (Py.int_of_float x)); simpl; [constructor |].
  rewrite trace_bind. simpl. constructor; [right; by eexists |]. apply IH.
Qed.

Lemma append_files_result (w : World) (delay : Z) (x : Py.float) (apng_obj : APNG)
    (png_files : list string) :
  Py.truediv delay 10 = inr x ->
  match result (append_files w delay apng_obj png_files) with
  | inr obj => obj = apng_obj ++ map (fun f => (f, Py.int_of_float x)) png_files
  | inl e => exists pe, e = Propagated pe
  end.
Proof.
  intros Hx. revert apng_obj.
  induction png_files as [| f rest IH]; intros apng_obj; simpl.
  - by rewrite app_nil_r.
  - rewrite Hx. rewrite result_bind. simpl. rewrite result_bind.
    unfold call_, call. simpl.
    destruct (APNG_append_file w f (Py.int_of_float x)); simpl; [by eexists |].
    rewrite result_bind. simpl. specialize (IH (apng_obj ++ [(f, Py.int_of_float x)])).
    destruct (result (append_files w delay (apng_obj ++ [(f, Py.int_of_float x)]) rest));
      [done |].
    by rewrite IH, <- app_assoc.
Qed.


(** ** The save calls of the conversion functions *)

Lemma load_images_saves (w : World) (delay : Z) (i : nat) (png_files : list string) :
  saves (trace (load_images w delay i png_files)) = [].
Proof.
  pose proof (load_images_trace w delay i png_files) as H.
  induction H as [| ev tr [f ->] _ IH]; [done | exact IH].
Qed.

Lemma append_files_saves (w : World) (delay : Z) (apng_obj : APNG)
    (png_files : list string) :
  saves (trace (append_files w delay apng_obj png_files)) = [].
Proof.
  destruct (Py.truediv delay 10) as [e | x] eqn:Hx.
  - destruct png_files as [| f rest]; [done |]. by rewrite (append_files_raises _ _ e).
  - pose proof (append_files_trace w delay x apng_obj png_files Hx) as H.
    induction H as [| ev tr [[f ->] | [line ->]] _ IH]; [done | exact IH | exact IH].
Qed.

Lemma create_webp_empty (w : World) (output_file input_folder : string)
    (delay quality : Z) (lossless : bool) :
  glob w (Py.path_join input_folder "*.png") = [] ->
  create_webp w output_file input_folder delay quality lossless =
  ([Print ("Starting to create WebP: Output file=" +:+ output_file
           +:+ ", Input folder=" +:+ input_folder)],
   inl (FileNotFoundError (no_png_message input_folder))).
Proof. intros H. unfold create_webp. by rewrite H. Qed.

(** The outcome of [create_webp] on a folder with PNG files: the images
    are loaded and the first one is saved, or a library call raised. *)
Lemma create_webp_cases (w : World) (output_file input_folder : string)
    (delay quality : Z) (lossless : bool) :
  glob w (Py.path_join input_folder "*.png") <> [] ->
  let png_files := Py.sorted (glob w (Py.path_join input_folder "*.png")) in
  let m := create_webp w output_file input_folder delay quality lossless in
  (exists pe, result (load_images w delay 0 png_files) = inl (Propagated pe) /\
              result m = inl (Propagated pe) /\ saves (trace m) = []) \/
  (exists first rest,
      result (load_images w delay 0 png_files) = inr (first :: rest) /\
      map filename (first :: rest) = png_files /\
      saves (trace m) =
        [ImageSave first output_file
                   (webp_save_params (first :: rest) delay quality lossless)] /\
      result m =
        match Image_save w first output_file
                (webp_save_params (first :: rest) delay quality lossless) with
        | Some pe => inl (Propagated pe)
        | None => inr tt
        end).
Proof.
  intros Hne png_files m. subst m. unfold create_webp. fold png_files.
  apply (not_iff_compat (sorted_nil _)) in Hne. fold png_files in Hne.
  rewrite trace_bind, result_bind. simpl.
  destruct png_files as [| f0 files0] eqn:Hfiles; [done |]. rewrite <- Hfiles. clear Hne.
  rewrite trace_bind, result_bind.
  pose proof (load_images_result w delay 0 png_files) as Hres.
  pose proof (load_images_saves w delay 0 png_files) as Hsaves.
  destruct (result (load_images w delay 0 png_files)) as [e | images].
  - destruct Hres as [pe ->]. left. exists pe. rewrite app_nil_r. by rewrite Hsaves.
  - destruct images as [| first rest]; [simpl in Hres; congruence |].
    right. exists first, rest. split; [done |]. split; [done |].
    rewrite saves_app, Hsaves. unfold call_, call. simpl.
    split; [done |]. by destruct (Image_save _ _ _ _).
Qed.

Lemma create_apng_empty (w : World) (output_file input_folder : string) (delay : Z) :
  glob w (Py.path_join input_folder "*.png") = [] ->
  create_apng w output_file input_folder delay =
  ([], inl (FileNotFoundError (no_png_message input_folder))).
Proof. intros H. unfold create_apng. by rewrite H. Qed.

Lemma create_apng_cases (w : World) (output_file input_folder : string) (delay : Z) :
  glob w (Py.path_join input_folder "*.png") <> [] ->
  let png_files := Py.sorted (glob w (Py.path_join input_folder "*.png")) in
  let m := create_apng w output_file input_folder delay in
  (exists msg, Py.truediv delay 10 = inl (OverflowError msg) /\
               result m = inl (OverflowError msg) /\ trace m = []) \/
  (exists x pe, Py.truediv delay 10 = inr x /\
                result (append_files w delay [] png_files) = inl (Propagated pe) /\
                result m = inl (Propagated pe) /\ saves (trace m) = []) \/
  (exists x, Py.truediv delay 10 = inr x /\
      let apng_obj := map (fun f => (f, Py.int_of_float x)) png_files in
      result (append_files w delay [] png_files) = inr apng_obj /\
      saves (trace m) = [ApngSave apng_obj output_file] /\
      result m = match APNG_save w apng_obj output_file with
                 | Some pe => inl (Propagated pe)
                 | None => inr tt
                 end).
Proof.
  intros Hne png_files m. subst m. unfold create_apng. fold png_files.
  apply (not_iff_compat (sorted_nil _)) in Hne. fold png_files in Hne.
  destruct png_files as [| f0 files0] eqn:Hfiles; [done |]. rewrite <- Hfiles.
  assert (Hne' : png_files <> []) by (by rewrite Hfiles). clear Hne.
  rewrite trace_bind, result_bind.
  pose proof (append_files_saves w delay [] png_files) as Hsaves.
  destruct (Py.truediv delay 10) as [e | x] eqn:Hx.
  - left. destruct (truediv_10_error _ _ Hx) as [msg ->]. exists msg.
    destruct png_files as [| f rest]; [done |].
    by rewrite (append_files_raises _ _ _ _ _ _ Hx).
  - right. pose proof (append_files_result w delay x [] png_files Hx) as Hres.
    destruct (result (append_files w delay [] png_files)) as [e | obj].
    + left. destruct Hres as [pe ->]. exists x, pe. rewrite app_nil_r. done.
    + right. exists x. simpl in Hres. subst obj. simpl.
      split; [done |]. split; [done |].
      rewrite trace_bind, result_bind, saves_app, Hsaves. unfold call_, call. simpl.
      destruct (APNG_save _ _ _); simpl; done.
Qed.

(** ** The conversion functions touch the libraries only *)

Lemma load_images_library (w : World) (delay : Z) (i : nat) (png_files : list string) :
  Forall (fun ev => is_library_event ev = true) (trace (load_images w delay i png_files)).
Proof.
  eapply Forall_impl; [apply load_images_trace |]. by intros ev [f ->].
Qed.

Lemma append_files_library (w : World) (delay : Z) (apng_obj : APNG)
    (png_files : list string) :
  Forall (fun ev => is_library_event ev = true)
         (trace (append_files w delay apng_obj png_files)).
Proof.
  destruct (Py.truediv delay 10) as [e | x] eqn:Hx.
  - destruct png_files as [| f rest]; [constructor |].
    rewrite (append_files_raises _ _ e); [constructor | done].
  - eapply Forall_impl; [by apply (append_files_trace _ _ x) |].
    by intros ev [[f ->] | [line ->]].
Qed.

Lemma create_webp_library (w : World) (output_file input_folder : string)
    (delay quality : Z) (lossless : bool) :
  Forall (fun ev => is_library_event ev = true)
         (trace (create_webp w output_file input_folder delay quality lossless)).
Proof.
  unfold create_webp. rewrite trace_bind. simpl. constructor; [done |].
  destruct (Py.sorted _) as [| f files] eqn:Hfiles; [constructor |].
  rewrite trace_bind. apply Forall_app. split; [apply load_images_library |].
  destruct (result (load_images _ _ _ _)) as [e | [| first rest]]; simpl;
    repeat constructor.
Qed.

Lemma create_apng_library (w : World) (output_file input_folder : string) (delay : Z) :
  Forall (fun ev => is_library_event ev = true)
         (trace (create_apng w output_file input_folder delay)).
Proof.
  unfold create_apng.
  destruct (Py.sorted _) as [| f files] eqn:Hfiles; [constructor |].
  rewrite trace_bind. apply Forall_app. split; [apply append_files_library |].
  destruct (result (append_files _ _ _ _)) as [e | obj]; [constructor |].
  rewrite trace_bind. unfold call_, call. simpl. constructor; [done |].
  destruct (APNG_save _ _ _); simpl; repeat constructor.
Qed.

Lemma in_saves (ev : event) (tr : list event) :
  is_save ev = true -> In ev tr -> In ev (saves tr).
Proof. intros Hs Hin. apply List.filter_In. by split. Qed.

(** ** The claims about the conversion functions *)

(** ** [glob.glob] on the pattern of a folder *)

Lemma app_String (c : ascii) (a b : string) : String c a +:+ b = String c (a +:+ b).
Proof. reflexivity. Qed.

Lemma app_EmptyString (b : string) : "" +:+ b = b.
Proof. reflexivity. Qed.



Lemma append_assoc (a b c : string) : (a +:+ b) +:+ c = a +:+ (b +:+ c).
Proof. induction a as [| x a IH]; [done | by rewrite !app_String, IH]. Qed.



Lemma rsplit_pattern (x : string) :
  Py.rsplit (x +:+ "/*.png") = (x +:+ "/", "*.png").
Proof.
  induction x as [| c x IH]; [done |].
  rewrite !app_String. simpl. rewrite IH. by destruct x.
Qed.







Lemma rstrip_slashes_slash (x : string) :
  Py.rstrip_slashes (x +:+ "/") = Py.rstrip_slashes x.
Proof.
  induction x as [| c x IH]; [done |]. rewrite app_String. simpl. by rewrite IH.
Qed.

Lemma rstrip_slashes_id (s : string) :
  s <> "" -> Py.endswith s "/" = false -> Py.rstrip_slashes s = s.
Proof.
  unfold Py.endswith. induction s as [| c s IH]; [done |]. intros _ Hend.
  destruct s as [| c' s].
  - simpl in *. by destruct (Ascii.eqb c "/").
  - assert (Hr : Py.rstrip_slashes (String c' s) = String c' s).
    { apply IH; [done |]. simpl in *. by rewrite Nat.sub_0_r in *. }
    change (Py.rstrip_slashes (String c (String c' s))) with
      (if String.eqb (Py.rstrip_slashes (String c' s)) "" && Ascii.eqb c "/" then ""
       else String c (Py.rstrip_slashes (String c' s))).
    by rewrite Hr.
Qed.

(** The dirname of the pattern of a folder is the path of the folder,
    unless that ends with a slash. *)
Lemma dirname_pattern (input_folder : string) :
  input_folder <> "" -> Py.endswith input_folder "/" = false ->
  Py.dirname (Py.path_join input_folder "*.png") = input_folder.
Proof.
  intros Hne Hend. unfold Py.path_join. simpl.
  destruct (String.eqb_spec input_folder "") as [| _]; [done |]. simpl.
  rewrite Hend. unfold Py.dirname, Py.split.
  change ("/" +:+ "*.png") with "/*.png". rewrite rsplit_pattern.
  rewrite rstrip_slashes_slash, (rstrip_slashes_id _ Hne Hend).
  by destruct (String.eqb_spec input_folder "").
Qed.

(** ** The fuel of [iglob] *)

Lemma length_app (a b : string) :
  String.length (a +:+ b) = (String.length a + String.length b)%nat.
Proof. induction a as [| c a IH]; [done |]. rewrite app_String. simpl. by rewrite IH. Qed.

Lemma rsplit_app (p : string) : p = (Py.rsplit p).1 +:+ (Py.rsplit p).2.
Proof.
  induction p as [| c p IH]; [done |]. simpl.
  destruct (Py.rsplit p) as [head tail]. simpl in IH.
  destruct (String.eqb_spec head "") as [-> | Hhead]; simpl.
  - destruct (Ascii.eqb c "/"); simpl; by rewrite IH.
  - by rewrite app_String, <- IH.
Qed.

Lemma rstrip_slashes_prefix (s : string) : exists z, s = Py.rstrip_slashes s +:+ z.
Proof.
  induction s as [| c s [z IH]]; [by exists "" |]. simpl.
  destruct (String.eqb (Py.rstrip_slashes s) "" && Ascii.eqb c "/").
  - by eexists.
  - exists z. by rewrite app_String, <- IH.
Qed.

(** The dirname of a path is the path or shorter. *)
Lemma dirname_shorter (p : string) :
  (Py.split p).1 <> p -> (String.length (Py.split p).1 < String.length p)%nat.
Proof.
  unfold Py.split. pose proof (rsplit_app p) as Hp.
  destruct (Py.rsplit p) as [head tail]. simpl in Hp.
  assert (Hprefix : exists z, p = (if String.eqb (Py.rstrip_slashes head) "" then head
                                   else Py.rstrip_slashes head) +:+ z).
  { destruct (String.eqb (Py.rstrip_slashes head) ""); [by exists tail |].
    destruct (rstrip_slashes_prefix head) as [z Hz].
    exists (z +:+ tail). by rewrite <- append_assoc, <- Hz. }
  simpl. destruct Hprefix as [z Hz]. intros Hne.
  rewrite Hz at 1. rewrite length_app.
  destruct z as [| c z]; simpl; [| lia].
  exfalso. apply Hne. rewrite Hz at 1. clear.
  generalize (if String.eqb (Py.rstrip_slashes head) "" then head
              else Py.rstrip_slashes head).
  intros s. induction s as [| c s IH]; [done |]. by rewrite app_String, <- IH.
Qed.

(** [iglob] gives the same with any fuel above the length of the path:
    the fuel [glob] gives it never runs out. *)
Lemma iglob_fuel (fs : Py.FileSystem) (n m : nat) (pathname : string) (dironly : bool) :
  (String.length pathname < n)%nat -> (String.length pathname < m)%nat ->
  Py.iglob n fs pathname dironly = Py.iglob m fs pathname dironly.
Proof.
  revert m pathname dironly.
  induction n as [| n IH]; intros m pathname dironly Hn Hm; [lia |].
  destruct m as [| m]; [lia |]. simpl.
  pose proof (dirname_shorter pathname) as Hshort.
  destruct (Py.split pathname) as [dirname basename]. simpl in Hshort.
  destruct (negb (Py.has_magic pathname)); [done |].
  destruct (String.eqb dirname ""); [done |].
  destruct (String.eqb_spec dirname pathname) as [| Hne]; simpl; [done |].
  destruct (Py.has_magic dirname); [| done].
  rewrite (IH m dirname true); [done | |]; specialize (Hshort Hne); lia.
Qed.

(** ** The check for PNG files, on the folder itself *)






(** C2: [run] returns without an exception and emits
    [conversion_finished] once: [(True, "")] when the conversion function
    of its format returns, [(False, str(e))] when it raises [e]. *)
Theorem C2_run_emits_once (w : World) (self : ConversionThread) :
  result (run w self) = inr tt /\
  length (emitted (trace (run w self))) = 1%nat /\
  (ct_format_type self = "webp" ->
     emitted (trace (run w self)) =
     [signal_of (result (create_webp w (ct_output_file self) (ct_input_folder self)
                                     (ct_delay self) (ct_quality self)
                                     (ct_lossless self)))]) /\
  (ct_format_type self = "apng" ->
     emitted (trace (run w self)) =
     [signal_of (result (create_apng w (ct_output_file self) (ct_input_folder self)
                                     (ct_delay self)))]).
Proof.
  unfold run. rewrite result_try_except, trace_try_except, result_bind, trace_bind.
  set (conv := if String.eqb (ct_format_type self) "webp" then _ else _).
  assert (Hlib : emitted (trace conv) = []).
  { apply library_trace_emitted. subst conv.
    destruct (String.eqb (ct_format_type self) "webp");
      [apply create_webp_library |].
    destruct (String.eqb (ct_format_type self) "apng");
      [apply create_apng_library | constructor]. }
  assert (Hemit : emitted (trace conv ++
            match result conv with
            | inl _ => []
            | inr _ => trace (tell (Emit true ""))
            end ++
            match (match result conv with
                   | inl e => inl e
                   | inr _ => result (tell (Emit true ""))
                   end) with
            | inl e => trace (tell (Emit false (str e)))
            | inr _ => []
            end) = [signal_of (result conv)]).
  { unfold emitted in *. rewrite !omap_app, Hlib.
    by destruct (result conv) as [e | []]. }
  rewrite <- app_assoc, Hemit.
  split; [by destruct (result conv) |]. split; [done |].
  subst conv. split; intros ->; done.
Qed.



Lemma webp_save_params_lookup (images : list Image) (delay quality : Z) (lossless : bool) :
  let params := webp_save_params images delay quality lossless in
  params !! "format" = Some (KwStr "WEBP") /\
  params !! "save_all" = Some (KwBool true) /\
  params !! "append_images" = Some (KwImages (tail images)) /\
  params !! "duration" = Some (KwInt delay) /\
  params !! "loop" = Some (KwInt 0) /\
  params !! "lossless" = Some (KwBool lossless) /\
  params !! "quality" = if lossless then None else Some (KwInt quality).
Proof. unfold webp_save_params. destruct lossless; simpl; repeat split; reflexivity. Qed.

(** The save calls in the trace of [create_webp]. *)
Lemma create_webp_save_event (w : World) (output_file input_folder : string)
    (delay quality : Z) (lossless : bool) (first : Image) (o : string)
    (params : gmap string kwval) :
  In (ImageSave first o params)
     (trace (create_webp w output_file input_folder delay quality lossless)) ->
  exists rest,
    map filename (first :: rest) = Py.sorted (glob w (Py.path_join input_folder "*.png")) /\
    o = output_file /\
    params = webp_save_params (first :: rest) delay quality lossless.
Proof.
  intros Hin. apply in_saves in Hin; [| done].
  destruct (decide (glob w (Py.path_join input_folder "*.png") = [])) as [Hempty | Hfiles].
  { by rewrite (create_webp_empty _ _ _ _ _ _ Hempty) in Hin. }
  destruct (create_webp_cases w output_file input_folder delay quality lossless Hfiles)
    as [(pe & _ & _ & Hs) | (first' & rest & _ & Hmap & Hs & _)];
    rewrite Hs in Hin; [done |].
  destruct Hin as [[= <- <- <-] | []]. by exists rest.
Qed.

Lemma create_apng_save_event (w : World) (output_file input_folder : string)
    (delay : Z) (frames : APNG) (o : string) :
  In (ApngSave frames o) (trace (create_apng w output_file input_folder delay)) ->
  exists x, Py.truediv delay 10 = inr x /\
    frames = map (fun f => (f, Py.int_of_float x))
                 (Py.sorted (glob w (Py.path_join input_folder "*.png"))) /\
    o = output_file.
Proof.
  intros Hin. apply in_saves in Hin; [| done].
  destruct (decide (glob w (Py.path_join input_folder "*.png") = [])) as [Hempty | Hfiles].
  { by rewrite (create_apng_empty _ _ _ _ Hempty) in Hin. }
  destruct (create_apng_cases w output_file input_folder delay Hfiles)
    as [(m & _ & _ & Hs) | [(x & pe & _ & _ & _ & Hs) | (x & Hx & _ & Hs & _)]];
    try rewrite Hs in Hin; [done | done |].
  destruct Hin as [[= <- <-] | []]. by exists x.
Qed.

(** C7 as stated fails: a lossless call succeeds and its save call gets no
    [quality]. *)
Lemma C7_counterexample :
  result (create_webp sample_world "output.webp" "frames" 41 80 true) = inr tt /\
  exists first params,
    saves (trace (create_webp sample_world "output.webp" "frames" 41 80 true)) =
      [ImageSave first "output.webp" params] /\
    params !! "quality" = None.
Proof.
  split; [vm_compute; reflexivity |].
  eexists _, _. split; [vm_compute; reflexivity |]. vm_compute. reflexivity.
Qed.

(** C7, amended: a successful call of [create_webp] makes one save call,
    with the delay as [duration] and the lossless flag; it passes the
    quality when lossless mode is off and no [quality] when it is on. *)
Theorem C7_save_params (w : World) (output_file input_folder : string)
    (delay quality : Z) (lossless : bool) :
  result (create_webp w output_file input_folder delay quality lossless) = inr tt ->
  exists first params,
    saves (trace (create_webp w output_file input_folder delay quality lossless)) =
      [ImageSave first output_file params] /\
    params !! "duration" = Some (KwInt delay) /\
    params !! "lossless" = Some (KwBool lossless) /\
    params !! "quality" = if lossless then None else Some (KwInt quality).
Proof.
  intros Hok.
  destruct (decide (glob w (Py.path_join input_folder "*.png") = [])) as [Hempty | Hfiles].
  { by rewrite (create_webp_empty _ _ _ _ _ _ Hempty) in Hok. }
  destruct (create_webp_cases w output_file input_folder delay quality lossless Hfiles)
    as [(pe & _ & Hres & _) | (first & rest & _ & _ & Hs & _)]; [congruence |].
  exists first, (webp_save_params (first :: rest) delay quality lossless).
  split; [done |].
  by destruct (webp_save_params_lookup (first :: rest) delay quality lossless)
    as (_ & _ & _ & ? & _ & ? & ?).
Qed.

(** The amended C7 on the sample folder in lossy mode. *)
Lemma C7_save_params_witness :
  exists first params,
    saves (trace (create_webp sample_world "output.webp" "frames" 41 80 false)) =
      [ImageSave first "output.webp" params] /\
    params !! "duration" = Some (KwInt 41) /\
    params !! "lossless" = Some (KwBool false) /\
    params !! "quality" = Some (KwInt 80).
Proof.
  apply (C7_save_params sample_world "output.webp" "frames" 41 80 false).
  vm_compute. reflexivity.
Defined.

(** ** The validation in [convert_images] *)

Ltac unfold_M :=
  unfold bind, try_except_ValueError, show_toast, int_, lift, tell, ret, raise,
    trace, result; simpl.

(** The first [try] block: a delay for a positive frame rate, and
    [ValueError] otherwise. *)
Lemma frame_delay_spec (text : string) :
  exists msg,
    frame_delay text =
    ([], match Py.int text with
         | Some fps => if 0 <? fps then inr (1000 ÷ fps) else inl (ValueError msg)
         | None => inl (ValueError msg)
         end).
Proof.
  unfold frame_delay, int_.
  destruct (Py.int text) as [fps |]; [| by eexists].
  destruct (Z.ltb_spec 0 fps) as [Hpos | Hneg].
  - exists "". destruct (int_truediv_exact 1000 fps Hpos) as (x & Hx & Hint); [done |].
    unfold_M. replace (fps <=? 0) with false by (symmetry; apply Z.leb_gt; lia).
    by rewrite Hx, Hint.
  - exists "". unfold_M. by replace (fps <=? 0) with true by (symmetry; apply Z.leb_le; lia).
Qed.

(** The second [try] block: the quality when it lies in [0..100], and
    [ValueError] otherwise. *)
Lemma image_quality_spec (text : string) :
  exists msg,
    image_quality text =
    ([], match Py.int text with
         | Some q => if (q <? 0) || (100 <? q) then inl (ValueError msg) else inr q
         | None => inl (ValueError msg)
         end).
Proof.
  unfold image_quality, int_.
  destruct (Py.int text) as [q |]; [| by eexists].
  exists "". unfold_M. by destruct ((q <? 0) || (100 <? q)).
Qed.

(** What [convert_images] shows and starts, by the checks in their order. *)
Lemma convert_images_trace (self : App) :
  trace (convert_images self) =
  match folder_selected (input_folder self) with
  | None => [ShowToast (error_toast "Please select a folder containing PNG files first")]
  | Some folder =>
      match Py.int (delay_entry self) with
      | Some fps =>
          if 0 <? fps then
            let output_file := Py.strip (output_entry self) in
            let start quality lossless :=
              [ShowToast progress_toast;
               ThreadStart {| ct_output_file := output_file; ct_input_folder := folder;
                              ct_format_type := match format_checked self with
                                                | webp_radio => "webp"
                                                | apng_radio => "apng"
                                                end;
                              ct_delay := 1000 ÷ fps; ct_quality := quality;
                              ct_lossless := lossless |}] in
            let check_quality :=
              match compression_checked self with
              | lossless_radio => start 100 true
              | lossy_radio =>
                  match Py.int (quality_entry self) with
                  | Some q =>
                      if (q <? 0) || (100 <? q)
                      then [ShowToast (error_toast
                              "Image quality must be an integer between 0 and 100")]
                      else start q false
                  | None =>
                      [ShowToast (error_toast
                         "Image quality must be an integer between 0 and 100")]
                  end
              end in
            match format_checked self with
            | webp_radio =>
                if Py.endswith output_file ".webp" then check_quality
                else [ShowToast (error_toast "Output file name must end with .webp")]
            | apng_radio =>
                if Py.endswith output_file ".png" then check_quality
                else [ShowToast (error_toast "Output file name must end with .png")]
            end
          else [ShowToast (error_toast "Frame rate must be a positive integer")]
      | None => [ShowToast (error_toast "Frame rate must be a positive integer")]
      end
  end.
Proof.
  unfold convert_images.
  destruct (folder_selected (input_folder self)) as [folder |]; [| done].
  destruct (frame_delay_spec (delay_entry self)) as [msg1 ->].
  destruct (image_quality_spec (quality_entry self)) as [msg2 ->].
  destruct (Py.int (delay_entry self)) as [fps |]; [| done].
  destruct (0 <? fps); [| done].
  destruct (format_checked self), (compression_checked self); simpl;
    destruct (Py.endswith _ _); simpl; try done;
    destruct (Py.int (quality_entry self)) as [q |]; try done;
    by destruct ((q <? 0) || (100 <? q)).
Qed.

(** X1: [convert_images] raises nothing: it returns a window for every
    state of the form. *)
Lemma convert_images_returns (self : App) :
  exists self', result (convert_images self) = inr self'.
Proof.
  unfold convert_images.
  destruct (folder_selected (input_folder self)) as [folder |]; [| by eexists].
  destruct (frame_delay_spec (delay_entry self)) as [msg1 ->].
  destruct (image_quality_spec (quality_entry self)) as [msg2 ->].
  destruct (Py.int (delay_entry self)) as [fps |]; [| by eexists].
  destruct (0 <? fps); [| by eexists].
  destruct (format_checked self), (compression_checked self); simpl;
    destruct (Py.endswith _ _); simpl; try (by eexists);
    destruct (Py.int (quality_entry self)) as [q |]; try (by eexists);
    destruct ((q <? 0) || (100 <? q)); by eexists.
Qed.

(** ** The claims about the window *)

(** C3: when the stripped output name lacks the extension of the checked
    format, [convert_images] shows one error toast and starts no thread, the
    toast being that of the extension check once a folder is selected and
    the frame rate is valid; when the name has the extension, neither toast
    of the extension check is shown. *)
Theorem C3_extension_check (self : App) :
  let output_file := Py.strip (output_entry self) in
  let tr := trace (convert_images self) in
  (format_checked self = webp_radio /\ Py.endswith output_file ".webp" = false \/
   format_checked self = apng_radio /\ Py.endswith output_file ".png" = false ->
     threads_started tr = [] /\ exists msg, toasts tr = [error_toast msg]) /\
  (forall folder fps,
     folder_selected (input_folder self) = Some folder ->
     Py.int (delay_entry self) = Some fps -> 0 < fps ->
     (format_checked self = webp_radio -> Py.endswith output_file ".webp" = false ->
        toasts tr = [error_toast "Output file name must end with .webp"]) /\
     (format_checked self = apng_radio -> Py.endswith output_file ".png" = false ->
        toasts tr = [error_toast "Output file name must end with .png"])) /\
  (format_checked self = webp_radio /\ Py.endswith output_file ".webp" = true \/
   format_checked self = apng_radio /\ Py.endswith output_file ".png" = true ->
     forall t, In t (toasts tr) ->
       message t <> "Output file name must end with .webp" /\
       message t <> "Output file name must end with .png").
Proof.
  intros output_file tr. subst tr output_file. rewrite convert_images_trace. cbv zeta.
  split; [| split].
  - intros [[-> ->] | [-> ->]];
      destruct (folder_selected _); [| by eauto | | by eauto];
      destruct (Py.int (delay_entry self)) as [fps |]; [| by eauto | | by eauto];
      destruct (0 <? fps); by eauto.
  - intros folder fps -> -> Hfps.
    replace (0 <? fps) with true by (symmetry; apply Z.ltb_lt; lia).
    split; intros -> ->; done.
  - intros Hext t.
    destruct (folder_selected _);
      [| intros [<- | []]; done].
    destruct (Py.int (delay_entry self)) as [fps |]; [| intros [<- | []]; done].
    destruct (0 <? fps); [| intros [<- | []]; done].
    destruct Hext as [[-> ->] | [-> ->]];
      destruct (compression_checked self); simpl;
      try (intros [<- | [<- | []]]; done);
      destruct (Py.int (quality_entry self)) as [q |];
      try destruct ((q <? 0) || (100 <? q)); simpl;
      try (intros [<- | []]; done); intros []; done.
Qed.

(** C4: in lossy mode a thread is started only for a quality text that
    [int] reads as a [q] with [0 <= q <= 100], which the thread gets; for
    any other text one error toast is shown and no thread is started, the
    toast being that of the quality check once the earlier checks pass. *)
Theorem C4_quality_check (self : App) :
  compression_checked self = lossy_radio ->
  let tr := trace (convert_images self) in
  (forall t, In t (threads_started tr) ->
     exists q, Py.int (quality_entry self) = Some q /\ 0 <= q <= 100 /\
               ct_quality t = q /\ ct_lossless t = false) /\
  (Py.int (quality_entry self) = None \/
   (exists q, Py.int (quality_entry self) = Some q /\ (q < 0 \/ 100 < q)) ->
     threads_started tr = [] /\ (exists msg, toasts tr = [error_toast msg]) /\
     (forall folder fps,
        folder_selected (input_folder self) = Some folder ->
        Py.int (delay_entry self) = Some fps -> 0 < fps ->
        Py.endswith (Py.strip (output_entry self))
                    (match format_checked self with
                     | webp_radio => ".webp"
                     | apng_radio => ".png"
                     end) = true ->
        toasts tr = [error_toast "Image quality must be an integer between 0 and 100"])).
Proof.
  intros Hlossy tr. subst tr. rewrite convert_images_trace. cbv zeta. rewrite Hlossy.
  split.
  - intros t.
    destruct (folder_selected _); [| done].
    destruct (Py.int (delay_entry self)) as [fps |]; [| done].
    destruct (0 <? fps); [| done].
    destruct (format_checked self); destruct (Py.endswith _ _); try done;
      (destruct (Py.int (quality_entry self)) as [q |]; [| done]);
      (destruct (Z.ltb_spec q 0); [done |]);
      (destruct (Z.ltb_spec 100 q); [done |]); simpl;
      (intros [<- | []]; exists q; simpl; repeat split; done || lia).
  - intros Hbad.
    assert (Hq : match Py.int (quality_entry self) with
                 | Some q => (q <? 0) || (100 <? q) = true
                 | None => True
                 end).
    { destruct Hbad as [-> | (q & -> & Hq)]; [done |].
      apply orb_true_iff. rewrite Z.ltb_lt, Z.ltb_lt. lia. }
    split; [| split].
    + destruct (folder_selected _); [| done].
      destruct (Py.int (delay_entry self)) as [fps |]; [| done].
      destruct (0 <? fps); [| done].
      destruct (format_checked self); destruct (Py.endswith _ _); try done;
        (destruct (Py.int (quality_entry self)) as [q |]; [| done]); by rewrite Hq.
    + destruct (folder_selected _); [| by eauto].
      destruct (Py.int (delay_entry self)) as [fps |]; [| by eauto].
      destruct (0 <? fps); [| by eauto].
      destruct (format_checked self); destruct (Py.endswith _ _); try (by eauto);
        (destruct (Py.int (quality_entry self)) as [q |]; [| by eauto]);
        rewrite Hq; by eauto.
    + intros folder fps -> -> Hfps.
      replace (0 <? fps) with true by (symmetry; apply Z.ltb_lt; lia).
      destruct (format_checked self); intros ->;
        (destruct (Py.int (quality_entry self)) as [q |]; [| done]); by rewrite Hq.
Qed.

(** C4 on the sample window with the quality 101. *)
Lemma C4_quality_check_witness :
  threads_started (trace (convert_images (set_quality_entry sample_app "101"))) = [] /\
  toasts (trace (convert_images (set_quality_entry sample_app "101"))) =
    [error_toast "Image quality must be an integer between 0 and 100"].
Proof.
  destruct (C4_quality_check (set_quality_entry sample_app "101") eq_refl)
    as (_ & Hbad).
  destruct Hbad as (Hthreads & _ & Htoast).
  - right. exists 101. split; [reflexivity | lia].
  - split; [exact Hthreads |].
    apply (Htoast "frames" 24); [reflexivity | reflexivity | lia | reflexivity].
Defined.

Lemma frame_delay_value (text : string) (fps : Z) :
  Py.int text = Some fps -> 0 < fps -> frame_delay text = ([], inr (1000 ÷ fps)).
Proof.
  intros Hint Hfps. destruct (frame_delay_spec text) as [msg ->]. rewrite Hint.
  by replace (0 <? fps) with true by (symmetry; apply Z.ltb_lt; lia).
Qed.

Lemma frame_delay_accepts (text : string) :
  (exists delay, result (frame_delay text) = inr delay) <->
  exists fps, Py.int text = Some fps /\ 0 < fps.
Proof.
  destruct (frame_delay_spec text) as [msg ->]. unfold result. simpl.
  destruct (Py.int text) as [fps |]; [destruct (Z.ltb_spec 0 fps) |].
  - split; by eauto.
  - split; [by intros [] | intros (fps' & [= <-] & ?); lia].
  - split; [by intros [] | by intros (fps' & [=] & ?)].
Qed.

(** C5: the first [try] block of [convert_images] returns a delay exactly
    for a text that [int] reads as an [fps > 0], and the delay is the
    truncation of [1000 / fps], which a started thread gets; for any other
    text one error toast is shown and no thread is started.  With a folder
    selected the frame-rate toast is shown exactly for such a text, and
    when the extension and the quality pass as well, one thread is started
    and it is handed that delay. *)
Theorem C5_frame_rate_check (self : App) :
  let tr := trace (convert_images self) in
  let accepted := exists fps, Py.int (delay_entry self) = Some fps /\ 0 < fps in
  ((exists delay, result (frame_delay (delay_entry self)) = inr delay) <-> accepted) /\
  (forall fps, Py.int (delay_entry self) = Some fps -> 0 < fps ->
     result (frame_delay (delay_entry self)) = inr (1000 ÷ fps) /\
     forall t, In t (threads_started tr) -> ct_delay t = 1000 ÷ fps) /\
  (~ accepted ->
     threads_started tr = [] /\ exists msg, toasts tr = [error_toast msg]) /\
  (forall folder, folder_selected (input_folder self) = Some folder ->
     (~ accepted <->
      toasts tr = [error_toast "Frame rate must be a positive integer"])) /\
  (forall folder fps,
     folder_selected (input_folder self) = Some folder ->
     Py.int (delay_entry self) = Some fps -> 0 < fps ->
     Py.endswith (Py.strip (output_entry self))
                 (match format_checked self with
                  | webp_radio => ".webp"
                  | apng_radio => ".png"
                  end) = true ->
     (compression_checked self = lossless_radio \/
      exists q, Py.int (quality_entry self) = Some q /\ 0 <= q <= 100) ->
     toasts tr = [progress_toast] /\
     exists t, threads_started tr = [t] /\ ct_delay t = 1000 ÷ fps /\
               ct_input_folder t = folder /\
               ct_output_file t = Py.strip (output_entry self)).
Proof.
  intros tr accepted. subst tr accepted.
  rewrite convert_images_trace. cbv zeta.
  split; [apply frame_delay_accepts |]. split; [| split; [| split]].
  - intros fps Hint Hfps. rewrite (frame_delay_value _ _ Hint Hfps), Hint.
    replace (0 <? fps) with true by (symmetry; apply Z.ltb_lt; lia).
    split; [done |]. intros t.
    destruct (folder_selected _); [| done].
    destruct (format_checked self), (compression_checked self);
      destruct (Py.endswith _ _); try done;
      try (destruct (Py.int (quality_entry self)) as [q |]; [| done];
           destruct ((q <? 0) || (100 <? q)); [done |]);
      simpl; by intros [<- | []].
  - intros Hno.
    assert (Hfps : match Py.int (delay_entry self) with
                   | Some fps => (0 <? fps) = false
                   | None => True
                   end).
    { destruct (Py.int (delay_entry self)) as [fps |]; [| done].
      apply Z.ltb_ge. destruct (Z.le_gt_cases fps 0); [done |].
      exfalso. apply Hno. exists fps. split; [done | lia]. }
    destruct (folder_selected _); [| by eauto].
    destruct (Py.int (delay_entry self)) as [fps |]; [| by eauto].
    rewrite Hfps. by eauto.
  - intros folder ->.
    destruct (Py.int (delay_entry self)) as [fps |];
      [destruct (Z.ltb_spec 0 fps) |].
    + split; [intros Hno; exfalso; apply Hno; by eauto |].
      intros Htoast. exfalso. revert Htoast.
      destruct (format_checked self), (compression_checked self);
        destruct (Py.endswith _ _); try done;
        destruct (Py.int (quality_entry self)) as [q |]; try done;
        by destruct ((q <? 0) || (100 <? q)).
    + split; [done |]. intros _ (fps' & [= <-] & ?). lia.
    + split; [done |]. by intros _ (fps' & [=] & ?).
  - intros folder fps -> -> Hfps Hext Hquality.
    replace (0 <? fps) with true by (symmetry; apply Z.ltb_lt; lia).
    assert (Hq : compression_checked self = lossless_radio \/
                 exists q, compression_checked self = lossy_radio /\
                           Py.int (quality_entry self) = Some q /\
                           (q <? 0) || (100 <? q) = false).
    { destruct Hquality as [? | (q & ? & ?)]; [by left |].
      destruct (compression_checked self); [right | by left].
      exists q. repeat split; [done |].
      apply orb_false_iff. rewrite !Z.ltb_ge. lia. }
    destruct (format_checked self); rewrite Hext;
      (destruct Hq as [-> | (q & -> & -> & ->)]); simpl;
      (split; [reflexivity | eexists; repeat split; reflexivity]).
Qed.

(** C8: with APNG checked [toggle_format] hides the quality frame and the
    compression section and sets the output name to [output.png]; with
    WebP checked it shows both and sets the name to [output.webp]. *)
Theorem C8_toggle_format (self : App) :
  (format_checked self = apng_radio ->
     quality_frame_visible (toggle_format self) = false /\
     compression_section_visible (toggle_format self) = false /\
     output_entry (toggle_format self) = "output.png") /\
  (format_checked self = webp_radio ->
     quality_frame_visible (toggle_format self) = true /\
     compression_section_visible (toggle_format self) = true /\
     output_entry (toggle_format self) = "output.webp").
Proof. unfold toggle_format. split; intros ->; done. Qed.

(** C9: in lossless mode the text of the quality entry changes nothing of
    what [convert_images] shows and starts; a started thread gets the
    quality 100, and a thread is started whenever the folder, the frame
    rate and the extension pass their checks. *)
Theorem C9_lossless_ignores_quality (self : App) (text : string) :
  compression_checked self = lossless_radio ->
  let tr := trace (convert_images (set_quality_entry self text)) in
  tr = trace (convert_images self) /\
  (forall t, In t (threads_started tr) -> ct_quality t = 100 /\ ct_lossless t = true) /\
  (forall folder fps,
     folder_selected (input_folder self) = Some folder ->
     Py.int (delay_entry self) = Some fps -> 0 < fps ->
     Py.endswith (Py.strip (output_entry self))
                 (match format_checked self with
                  | webp_radio => ".webp"
                  | apng_radio => ".png"
                  end) = true ->
     toasts tr = [progress_toast] /\
     exists t, threads_started tr = [t] /\ ct_quality t = 100).
Proof.
  intros Hlossless tr. subst tr. rewrite !convert_images_trace. cbv zeta. simpl.
  rewrite Hlossless. split; [done |]. split.
  - intros t.
    destruct (folder_selected _); [| done].
    destruct (Py.int (delay_entry self)) as [fps |]; [| done].
    destruct (0 <? fps); [| done].
    destruct (format_checked self); destruct (Py.endswith _ _); try done;
      simpl; by intros [<- | []].
  - intros folder fps -> -> Hfps.
    replace (0 <? fps) with true by (symmetry; apply Z.ltb_lt; lia).
    destruct (format_checked self); intros ->; simpl; by eauto.
Qed.

(** C9 on the sample window in lossless mode with a quality that is no
    number. *)
Lemma C9_lossless_ignores_quality_witness :
  toasts (trace (convert_images
    (set_quality_entry (set_compression_checked sample_app lossless_radio) "best"))) =
    [progress_toast] /\
  exists t,
    threads_started (trace (convert_images
      (set_quality_entry (set_compression_checked sample_app lossless_radio) "best"))) =
      [t] /\
    ct_quality t = 100.
Proof.
  destruct (C9_lossless_ignores_quality
              (set_compression_checked sample_app lossless_radio) "best" eq_refl)
    as (_ & _ & Hstart).
  apply (Hstart "frames" 24); [reflexivity | reflexivity | lia | reflexivity].
Defined.

(** A thread [convert_images] starts carries the checked form. *)
Lemma started_thread (self : App) (t : ConversionThread) :
  In t (threads_started (trace (convert_images self))) ->
  exists folder fps,
    folder_selected (input_folder self) = Some folder /\
    Py.int (delay_entry self) = Some fps /\ 0 < fps /\
    t = {| ct_output_file := Py.strip (output_entry self);
           ct_input_folder := folder;
           ct_format_type := match format_checked self with
                             | webp_radio => "webp"
                             | apng_radio => "apng"
                             end;
           ct_delay := 1000 ÷ fps;
           ct_quality := ct_quality t;
           ct_lossless := match compression_checked self with
                          | lossy_radio => false
                          | lossless_radio => true
                          end |}.
Proof.
  rewrite convert_images_trace. cbv zeta.
  destruct (folder_selected _) as [folder |]; [| done].
  destruct (Py.int (delay_entry self)) as [fps |]; [| done].
  destruct (Z.ltb_spec 0 fps); [| done].
  intros Hin. exists folder, fps. repeat (split; [done |]). revert Hin.
  destruct (format_checked self), (compression_checked self);
    destruct (Py.endswith _ _); try done;
    try (destruct (Py.int (quality_entry self)) as [q |]; [| done];
         destruct ((q <? 0) || (100 <? q)); [done |]);
    simpl; by intros [<- | []].
Qed.

Lemma create_webp_no_append (w : World) (output_file input_folder : string)
    (delay quality : Z) (lossless : bool) :
  apng_delays (trace (create_webp w output_file input_folder delay quality lossless)) = [].
Proof.
  unfold create_webp, apng_delays. rewrite trace_bind. simpl.
  destruct (Py.sorted _) as [| f files] eqn:Hfiles; [done |].
  rewrite trace_bind, omap_app.
  assert (Hload : forall i l,
    omap (fun ev => match ev with ApngAppendFile _ cs => Some cs | _ => None end)
         (trace (load_images w delay i l)) = []).
  { intros i l. pose proof (load_images_trace w delay i l) as H.
    induction H as [| ev tr [g ->] _ IH]; [done | exact IH]. }
  rewrite Hload.
  by destruct (result (load_images _ _ _ _)) as [e | [| first rest]].
Qed.

Lemma create_apng_delays (w : World) (output_file input_folder : string) (delay cs : Z) :
  In cs (apng_delays (trace (create_apng w output_file input_folder delay))) ->
  exists x, Py.truediv delay 10 = inr x /\ cs = Py.int_of_float x.
Proof.
  unfold create_apng, apng_delays.
  destruct (Py.sorted _) as [| f files] eqn:Hfiles; [done |]. rewrite <- Hfiles.
  rewrite trace_bind, omap_app.
  destruct (Py.truediv delay 10) as [e | x] eqn:Hx.
  { rewrite Hfiles. by rewrite (append_files_raises _ _ e). }
  intros Hin. exists x. split; [done |].
  apply in_app_or in Hin as [Hin | Hin].
  - pose proof (append_files_trace w delay x [] (Py.sorted (glob w (Py.path_join input_folder "*.png"))) Hx) as H.
    induction H as [| ev tr [[g ->] | [line ->]] _ IH]; [done | | by apply IH].
    destruct Hin as [<- | Hin]; [done | by apply IH].
  - destruct (result (append_files _ _ _ _)) as [e | obj]; [done |].
    revert Hin. rewrite trace_bind. unfold call_, call. simpl.
    by destruct (APNG_save _ _ _).
Qed.

Lemma run_delays (w : World) (self : ConversionThread) (cs : Z) :
  In cs (apng_delays (trace (run w self))) ->
  In cs (apng_delays (trace (create_apng w (ct_output_file self) (ct_input_folder self)
                                         (ct_delay self)))).
Proof.
  unfold run. rewrite trace_try_except, trace_bind. unfold apng_delays.
  rewrite !omap_app. intros Hin.
  apply in_app_or in Hin as [Hin | Hin];
    [apply in_app_or in Hin as [Hin | Hin] |].
  - destruct (String.eqb (ct_format_type self) "webp").
    + by rewrite (create_webp_no_append w) in Hin.
    + by destruct (String.eqb (ct_format_type self) "apng").
  - by destruct (result _).
  - by destruct (result _).
Qed.

(** C10: [create_apng] appends every frame with [delay=int(delay / 10)],
    the truncated quotient for a delay below [2^53], and with no
    [delay_den], so that the frame is shown for that many milliseconds,
    not hundredths of a second.  For a thread that [convert_images] starts
    at the frame rate [fps] the number is [(1000 ÷ fps) ÷ 10], which is 0
    for every rate above 1000, and the frame is shown for no more than a
    tenth of the thread's delay.  At 24 frames per second the thread's
    delay is 41 ms and each of the three frames of the sample folder is
    shown for 4 ms, where the comment of the code expects 40 ms. *)
Theorem C10_apng_frame_duration (w : World) (output_file input_folder : string)
    (delay : Z) :
  (forall fc,
     In fc (frame_controls (trace (create_apng w output_file input_folder delay))) ->
     fc_delay_den fc = 1000 /\ milliseconds fc = fc_delay fc /\
     (exists x, Py.truediv delay 10 = inr x /\ fc_delay fc = Py.int_of_float x) /\
     (Z.abs delay < 2 ^ 53 -> fc_delay fc = delay ÷ 10)) /\
  (forall (self : App) (fps : Z) (t : ConversionThread),
     Py.int (delay_entry self) = Some fps ->
     In t (threads_started (trace (convert_images self))) ->
     ct_delay t = 1000 ÷ fps /\
     forall fc, In fc (frame_controls (trace (run w t))) ->
       fc_delay fc = (1000 ÷ fps) ÷ 10 /\
       milliseconds fc = (1000 ÷ fps) ÷ 10 /\
       10 * milliseconds fc <= ct_delay t) /\
  (exists t, threads_started (trace (convert_images sample_apng_app)) = [t] /\
             ct_delay t = 41 /\
             apng_delays (trace (run sample_world t)) = [4; 4; 4] /\
             map milliseconds (frame_controls (trace (run sample_world t))) = [4; 4; 4]) /\
  (forall fps, 1000 < fps -> (1000 ÷ fps) ÷ 10 = 0).
Proof.
  assert (Hms : forall n, milliseconds (frame_control n) = n).
  { intros n. unfold milliseconds. simpl. by rewrite Z.mul_comm, Z.div_mul. }
  assert (Hexact : forall o i d n,
            In n (apng_delays (trace (create_apng w o i d))) ->
            Z.abs d < 2 ^ 53 -> n = d ÷ 10).
  { intros o i d n Hin Hd.
    destruct (create_apng_delays _ _ _ _ _ Hin) as (x & Hx & ->).
    destruct (int_truediv_exact d 10) as (x' & Hx' & <-); [lia | done |]. congruence. }
  split; [| split; [| split]].
  - intros fc Hin. apply in_map_iff in Hin as (n & <- & Hin).
    split; [done |]. split; [apply Hms |].
    split; [by apply create_apng_delays in Hin | apply (Hexact _ _ _ _ Hin)].
  - intros self fps t Hint Hin.
    destruct (started_thread self t Hin) as (folder & fps' & _ & Hint' & Hfps & Ht).
    assert (fps' = fps) as -> by congruence.
    assert (Hdelay : ct_delay t = 1000 ÷ fps) by (by rewrite Ht).
    split; [done |]. intros fc Hfc. apply in_map_iff in Hfc as (n & <- & Hn).
    apply run_delays in Hn.
    assert (Hrange : 0 <= 1000 ÷ fps <= 1000).
    { rewrite Z.quot_div_nonneg by lia. split; [apply Z.div_pos; lia |].
      apply Z.div_le_upper_bound; nia. }
    assert (Hq : n = (1000 ÷ fps) ÷ 10).
    { rewrite <- Hdelay. apply (Hexact _ _ _ _ Hn). rewrite Hdelay.
      rewrite Z.abs_eq by lia. apply Z.le_lt_trans with 1000; [lia | done]. }
    rewrite Hms. simpl. split; [done |]. split; [done |].
    rewrite Hq, Hdelay. rewrite (Z.quot_div_nonneg (1000 ÷ fps) 10) by lia.
    apply Z.mul_div_le. lia.
  - eexists. split; [vm_compute; reflexivity |].
    split; [vm_compute; reflexivity |].
    split; vm_compute; reflexivity.
  - intros fps Hfps. rewrite (Z.quot_small 1000 fps) by lia. done.
Qed.

(** ** Sample runs *)

Example sample_frame_delay : frame_delay "24" = ([], inr 41).
Proof. vm_compute. reflexivity. Qed.

Example sample_create_apng :
  create_apng sample_world "output.png" "frames" 41 =
  ([ApngAppendFile "frames/1.png" 4; Print "Frame added: frames/1.png";
    ApngAppendFile "frames/10.png" 4; Print "Frame added: frames/10.png";
    ApngAppendFile "frames/2.png" 4; Print "Frame added: frames/2.png";
    ApngSave [("frames/1.png", 4); ("frames/10.png", 4); ("frames/2.png", 4)]
             "output.png";
    Print "APNG file saved as output.png"],
   inr tt).
Proof. vm_compute. reflexivity. Qed.

Example sample_run_empty_folder :
  run sample_world {| ct_output_file := "output.webp"; ct_input_folder := "empty";
                      ct_format_type := "webp"; ct_delay := 41; ct_quality := 90;
                      ct_lossless := false |} =
  ([Print "Starting to create WebP: Output file=output.webp, Input folder=empty";
    Emit false "No PNG files found, please check the empty folder."],
   inr tt).
Proof. vm_compute. reflexivity. Qed.

Example sample_convert_images :
  trace (convert_images sample_app) =
  [ShowToast progress_toast;
   ThreadStart {| ct_output_file := "output.webp"; ct_input_folder := "frames";
                  ct_format_type := "webp"; ct_delay := 41; ct_quality := 90;
                  ct_lossless := false |}].
Proof. vm_compute. reflexivity. Qed.

Example sample_wrong_extension :
  trace (convert_images (set_output_entry sample_app "output.gif")) =
  [ShowToast (error_toast "Output file name must end with .webp")].
Proof. vm_compute. reflexivity. Qed.

Example sample_frame_rate_zero :
  trace (convert_images (set_delay_entry sample_app "0")) =
  [ShowToast (error_toast "Frame rate must be a positive integer")].
Proof. vm_compute. reflexivity. Qed.

(** * Further properties of the code *)

(** ** The calls of [create_webp], in order *)

Lemma load_images_all (w : World) (delay : Z) (i : nat) (png_files : list string)
    (images : list Image) :
  result (load_images w delay i png_files) = inr images ->
  trace (load_images w delay i png_files) = map ImageOpen png_files /\
  forall (k : nat) (img : Image), images !! k = Some img ->
    exists png_file opened,
      png_files !! k = Some png_file /\ Image_open w png_file = inr opened /\
      filename img = png_file /\ mode img = "RGBA" /\
      info img = if (0 <? i + k)%nat then <["duration" := PyInt delay]> opened
                 else opened.
Proof.
  revert i images. induction png_files as [| f rest IH]; intros i images; simpl.
  - intros [= <-]. split; [done |]. intros k img. by rewrite lookup_nil.
  - rewrite result_bind, trace_bind. unfold call at 1 3. simpl.
    destruct (Image_open w f) as [e | opened] eqn:Hopen; simpl; [done |].
    rewrite result_bind, trace_bind.
    destruct (result (load_images w delay (S i) rest)) as [e | images'] eqn:Hrest;
      simpl; [done |].
    intros [= <-]. destruct (IH (S i) images' Hrest) as [Htr Himgs].
    split; [by rewrite Htr, app_nil_r |].
    intros [| k] img; simpl.
    + intros [= <-]. exists f, opened. by rewrite Nat.add_0_r.
    + intros Hk. destruct (Himgs k img Hk) as (g & o & ? & ? & ? & ? & Hinfo).
      exists g, o. repeat (split; [done |]).
      by replace (i + S k)%nat with (S i + k)%nat by lia.
Qed.

Lemma load_images_fails (w : World) (delay : Z) (i : nat)
    (before after : list string) (png_file : string) (pe : PyException) :
  Forall (fun f => exists opened, Image_open w f = inr opened) before ->
  Image_open w png_file = inl pe ->
  load_images w delay i (before ++ png_file :: after) =
  (map ImageOpen (before ++ [png_file]), inl (Propagated pe)).
Proof.
  intros Hbefore Hfail. revert i.
  induction Hbefore as [| f rest [opened Hf] _ IH]; intros i; simpl.
  - unfold bind, call. simpl. by rewrite Hfail.
  - unfold bind at 1. unfold call at 1. simpl. rewrite Hf. unfold bind at 1.
    by rewrite IH.
Qed.

(** X2: in a save call of [create_webp] every image is in mode RGBA; the
    first one keeps the [info] it was opened with, and each appended one
    has that [info] with the delay as its [duration]. *)
Theorem create_webp_image_info (w : World) (output_file input_folder : string)
    (delay quality : Z) (lossless : bool) (first : Image) (o : string)
    (params : gmap string kwval) :
  In (ImageSave first o params)
     (trace (create_webp w output_file input_folder delay quality lossless)) ->
  mode first = "RGBA" /\ Image_open w (filename first) = inr (info first) /\
  exists rest,
    params !! "append_images" = Some (KwImages rest) /\
    Forall (fun img =>
              mode img = "RGBA" /\
              info img !! "duration" = Some (PyInt delay) /\
              exists opened, Image_open w (filename img) = inr opened /\
                             info img = <["duration" := PyInt delay]> opened) rest.
Proof.
  intros Hin. apply in_saves in Hin; [| done].
  destruct (decide (glob w (Py.path_join input_folder "*.png") = [])) as [Hempty | Hfiles].
  { by rewrite (create_webp_empty _ _ _ _ _ _ Hempty) in Hin. }
  destruct (create_webp_cases w output_file input_folder delay quality lossless Hfiles)
    as [(pe & _ & _ & Hs) | (first' & rest & Hload & _ & Hs & _)];
    rewrite Hs in Hin; [done |].
  destruct Hin as [[= <- <- <-] | []].
  destruct (load_images_all _ _ _ _ _ Hload) as [_ Himgs].
  destruct (Himgs 0%nat first' eq_refl) as (f & opened & _ & Hopen & <- & Hmode & Hinfo).
  simpl in Hinfo. split; [done |]. split; [by rewrite Hinfo |].
  exists rest. split; [apply (webp_save_params_lookup (first' :: rest)) |].
  apply Forall_lookup. intros k img Hk.
  destruct (Himgs (S k) img Hk) as (g & o & _ & Hg & <- & Hm & Hi).
  simpl in Hi. split; [done |]. split; [by rewrite Hi, lookup_insert_eq |]. by exists o.
Qed.

Lemma create_webp_image_info_witness :
  exists rest,
    webp_save_params
      ({| filename := "frames/1.png"; mode := "RGBA"; info := ∅ |}
       :: map (fun f => {| filename := f; mode := "RGBA";
                           info := {["duration" := PyInt 41]} |})
              ["frames/10.png"; "frames/2.png"]) 41 90 false
      !! "append_images" = Some (KwImages rest) /\
    Forall (fun img =>
              mode img = "RGBA" /\
              info img !! "duration" = Some (PyInt 41) /\
              exists opened, Image_open sample_world (filename img) = inr opened /\
                             info img = <["duration" := PyInt 41]> opened) rest.
Proof.
  eapply (create_webp_image_info sample_world "output.webp" "frames" 41 90 false).
  vm_compute. right. right. right. right. left. reflexivity.
Defined.

(** X3: when every file of the listing opens, [create_webp] prints its
    line, opens each file once in the order of the listing, and then makes
    its one save call; it returns unless that call raises. *)
Theorem create_webp_calls (w : World) (output_file input_folder : string)
    (delay quality : Z) (lossless : bool) :
  let png_files := Py.sorted (glob w (Py.path_join input_folder "*.png")) in
  png_files <> [] ->
  Forall (fun f => exists opened, Image_open w f = inr opened) png_files ->
  exists first rest,
    map filename (first :: rest) = png_files /\
    let params := webp_save_params (first :: rest) delay quality lossless in
    create_webp w output_file input_folder delay quality lossless =
    (Print (webp_start_line output_file input_folder)
       :: map ImageOpen png_files ++ [ImageSave first output_file params],
     match Image_save w first output_file params with
     | Some pe => inl (Propagated pe)
     | None => inr tt
     end).
Proof.
  intros png_files Hne Hopen.
  destruct (load_images_returns w delay 0 png_files Hopen) as [images Hload].
  destruct (load_images_all _ _ _ _ _ Hload) as [Htrace _].
  pose proof (load_images_result w delay 0 png_files) as Hmap. rewrite Hload in Hmap.
  destruct images as [| first rest]; [simpl in Hmap; congruence |].
  exists first, rest. split; [done |]. intros params.
  unfold create_webp. fold png_files.
  destruct png_files as [| f files] eqn:Hp; [done |]. rewrite <- Hp in *.
  destruct (load_images w delay 0 png_files) as [tr r]. simpl in Hload, Htrace. subst.
  unfold bind, tell, call_, call. simpl. fold params.
  by destruct (Image_save w first output_file params).
Qed.

Lemma create_webp_calls_witness :
  exists first rest,
    map filename (first :: rest) = ["frames/1.png"; "frames/10.png"; "frames/2.png"] /\
    create_webp sample_world "output.webp" "frames" 41 90 false =
    ([Print "Starting to create WebP: Output file=output.webp, Input folder=frames";
      ImageOpen "frames/1.png"; ImageOpen "frames/10.png"; ImageOpen "frames/2.png";
      ImageSave first "output.webp" (webp_save_params (first :: rest) 41 90 false)],
     inr tt).
Proof.
  apply (create_webp_calls sample_world "output.webp" "frames" 41 90 false).
  - vm_compute. discriminate.
  - vm_compute. repeat constructor; by eexists.
Defined.

(** X4: when a file of the listing fails to open, [create_webp] raises the
    exception of the first such file: the files before it were opened, no
    later file is, and no save call is made. *)
Theorem create_webp_open_fails (w : World) (output_file input_folder : string)
    (delay quality : Z) (lossless : bool) (before after : list string)
    (png_file : string) (pe : PyException) :
  Py.sorted (glob w (Py.path_join input_folder "*.png")) = before ++ png_file :: after ->
  Forall (fun f => exists opened, Image_open w f = inr opened) before ->
  Image_open w png_file = inl pe ->
  create_webp w output_file input_folder delay quality lossless =
  (Print (webp_start_line output_file input_folder)
     :: map ImageOpen (before ++ [png_file]),
   inl (Propagated pe)).
Proof.
  intros Hfiles Hbefore Hfail. unfold create_webp. rewrite Hfiles.
  rewrite (load_images_fails _ _ _ _ _ _ _ Hbefore Hfail).
  by destruct before.
Qed.

Lemma create_webp_open_fails_witness :
  create_webp failing_world "output.webp" "frames" 41 90 false =
  ([Print "Starting to create WebP: Output file=output.webp, Input folder=frames";
    ImageOpen "frames/1.png"; ImageOpen "frames/10.png"],
   inl (Propagated unreadable)).
Proof.
  apply (create_webp_open_fails failing_world "output.webp" "frames" 41 90 false
           ["frames/1.png"] ["frames/2.png"] "frames/10.png" unreadable).
  - vm_compute. reflexivity.
  - repeat constructor. by eexists.
  - reflexivity.
Defined.

(** ** The calls of [create_apng], in order *)

Lemma append_files_all (w : World) (delay : Z) (x : Py.float) (apng_obj : APNG)
    (png_files : list string) :
  Py.truediv delay 10 = inr x ->
  Forall (fun f => APNG_append_file w f (Py.int_of_float x) = None) png_files ->
  append_files w delay apng_obj png_files =
  (flat_map (frame_added (Py.int_of_float x)) png_files,
   inr (apng_obj ++ map (fun f => (f, Py.int_of_float x)) png_files)).
Proof.
  intros Hx Hok. revert apng_obj.
  induction Hok as [| f rest Hf _ IH]; intros apng_obj; simpl.
  - by rewrite app_nil_r.
  - rewrite Hx. unfold bind at 1. unfold lift. unfold bind at 1.
    unfold call_, call. rewrite Hf. unfold bind at 1. unfold tell.
    rewrite IH. simpl. by rewrite <- app_assoc.
Qed.

Lemma append_files_fails (w : World) (delay : Z) (x : Py.float) (apng_obj : APNG)
    (before after : list string) (png_file : string) (pe : PyException) :
  Py.truediv delay 10 = inr x ->
  Forall (fun f => APNG_append_file w f (Py.int_of_float x) = None) before ->
  APNG_append_file w png_file (Py.int_of_float x) = Some pe ->
  append_files w delay apng_obj (before ++ png_file :: after) =
  (flat_map (frame_added (Py.int_of_float x)) before
     ++ [ApngAppendFile png_file (Py.int_of_float x)],
   inl (Propagated pe)).
Proof.
  intros Hx Hok Hfail. revert apng_obj.
  induction Hok as [| f rest Hf _ IH]; intros apng_obj; simpl.
  - rewrite Hx. unfold bind, lift, call_, call. simpl. by rewrite Hfail.
  - rewrite Hx. unfold bind at 1. unfold lift. unfold bind at 1.
    unfold call_, call. rewrite Hf. unfold bind at 1. unfold tell.
    by rewrite IH.
Qed.

(** X5: when every file of the listing is appended, [create_apng] appends
    each file once in the order of the listing, all with the one delay,
    printing a line after each, then saves the object with these frames;
    the closing line is printed only when the save call returns. *)
Theorem create_apng_calls (w : World) (output_file input_folder : string)
    (delay : Z) :
  let png_files := Py.sorted (glob w (Py.path_join input_folder "*.png")) in
  let cs := delay ÷ 10 in
  let apng_obj := map (fun f => (f, cs)) png_files in
  png_files <> [] ->
  Z.abs delay < 2 ^ 53 ->
  Forall (fun f => APNG_append_file w f cs = None) png_files ->
  create_apng w output_file input_folder delay =
  match APNG_save w apng_obj output_file with
  | Some pe =>
      (flat_map (frame_added cs) png_files ++ [ApngSave apng_obj output_file],
       inl (Propagated pe))
  | None =>
      (flat_map (frame_added cs) png_files
         ++ [ApngSave apng_obj output_file;
             Print ("APNG file saved as " +:+ output_file)],
       inr tt)
  end.
Proof.
  intros png_files cs apng_obj Hne Hdelay Hok. subst apng_obj cs.
  destruct (int_truediv_exact delay 10) as (x & Hx & Hcs); [lia | done |].
  rewrite <- Hcs in *.
  unfold create_apng. fold png_files.
  destruct png_files as [| f files] eqn:Hp; [done |]. rewrite <- Hp in *.
  rewrite (append_files_all _ _ _ _ _ Hx Hok).
  unfold bind, call_, call, tell. simpl.
  by destruct (APNG_save _ _ _).
Qed.

Lemma create_apng_calls_witness :
  create_apng sample_world "output.png" "frames" 41 =
  ([ApngAppendFile "frames/1.png" 4; Print "Frame added: frames/1.png";
    ApngAppendFile "frames/10.png" 4; Print "Frame added: frames/10.png";
    ApngAppendFile "frames/2.png" 4; Print "Frame added: frames/2.png";
    ApngSave [("frames/1.png", 4); ("frames/10.png", 4); ("frames/2.png", 4)]
             "output.png";
    Print "APNG file saved as output.png"],
   inr tt).
Proof.
  apply (create_apng_calls sample_world "output.png" "frames" 41).
  - vm_compute. discriminate.
  - vm_compute. reflexivity.
  - vm_compute. repeat constructor.
Defined.

(** X6: when a file of the listing cannot be appended, [create_apng]
    raises the exception of the first such file: the files before it were
    appended, no later file is, and nothing is saved. *)
Theorem create_apng_append_fails (w : World) (output_file input_folder : string)
    (delay : Z) (before after : list string) (png_file : string)
    (pe : PyException) :
  let cs := delay ÷ 10 in
  Py.sorted (glob w (Py.path_join input_folder "*.png")) = before ++ png_file :: after ->
  Z.abs delay < 2 ^ 53 ->
  Forall (fun f => APNG_append_file w f cs = None) before ->
  APNG_append_file w png_file cs = Some pe ->
  create_apng w output_file input_folder delay =
  (flat_map (frame_added cs) before ++ [ApngAppendFile png_file cs],
   inl (Propagated pe)).
Proof.
  intros cs Hfiles Hdelay Hok Hfail. subst cs.
  destruct (int_truediv_exact delay 10) as (x & Hx & Hcs); [lia | done |].
  rewrite <- Hcs in *. unfold create_apng. rewrite Hfiles.
  rewrite (append_files_fails _ _ _ _ _ _ _ _ Hx Hok Hfail).
  by destruct before.
Qed.

Lemma create_apng_append_fails_witness :
  create_apng failing_world "output.png" "frames" 41 =
  ([ApngAppendFile "frames/1.png" 4; Print "Frame added: frames/1.png";
    ApngAppendFile "frames/10.png" 4],
   inl (Propagated unreadable)).
Proof.
  apply (create_apng_append_fails failing_world "output.png" "frames" 41
           ["frames/1.png"] ["frames/2.png"] "frames/10.png" unreadable).
  - vm_compute. reflexivity.
  - vm_compute. reflexivity.
  - repeat constructor.
  - reflexivity.
Defined.

(** ** The parameters of the save call *)

(** X7: a save call of [create_webp] always asks for the WEBP format, for
    all frames, and for an endless loop; its keyword arguments are those
    six of the dictionary, and [quality] beside them in lossy mode only. *)
Theorem create_webp_fixed_params (w : World) (output_file input_folder : string)
    (delay quality : Z) (lossless : bool) (first : Image) (o : string)
    (params : gmap string kwval) :
  In (ImageSave first o params)
     (trace (create_webp w output_file input_folder delay quality lossless)) ->
  params !! "format" = Some (KwStr "WEBP") /\
  params !! "save_all" = Some (KwBool true) /\
  params !! "loop" = Some (KwInt 0) /\
  dom params =
    {["format"; "save_all"; "append_images"; "duration"; "loop"; "lossless"]}
    ∪ (if lossless then ∅ else {["quality"]}).
Proof.
  intros Hin.
  destruct (create_webp_save_event _ _ _ _ _ _ _ _ _ Hin) as (rest & _ & _ & ->).
  destruct (webp_save_params_lookup (first :: rest) delay quality lossless)
    as (? & ? & _ & _ & ? & _).
  repeat (split; [done |]).
  unfold webp_save_params. destruct lossless; simpl;
    rewrite !dom_insert_L, dom_empty_L; set_solver.
Qed.

Lemma create_webp_fixed_params_witness :
  let params :=
    webp_save_params
      ({| filename := "frames/1.png"; mode := "RGBA"; info := ∅ |}
       :: map (fun f => {| filename := f; mode := "RGBA";
                           info := {["duration" := PyInt 41]} |})
              ["frames/10.png"; "frames/2.png"]) 41 90 true in
  params !! "format" = Some (KwStr "WEBP") /\
  params !! "save_all" = Some (KwBool true) /\
  params !! "loop" = Some (KwInt 0) /\
  dom params =
    {["format"; "save_all"; "append_images"; "duration"; "loop"; "lossless"]} ∪ ∅.
Proof.
  apply (create_webp_fixed_params sample_world "output.webp" "frames" 41 90 true
           {| filename := "frames/1.png"; mode := "RGBA"; info := ∅ |} "output.webp").
  vm_compute. right. right. right. right. left. reflexivity.
Defined.

(** ** What the worker thread runs *)

(** X8: a thread whose format is neither [webp] nor [apng] calls no
    library and still reports success. *)
Theorem run_unknown_format (w : World) (self : ConversionThread) :
  ct_format_type self <> "webp" -> ct_format_type self <> "apng" ->
  run w self = ([Emit true ""], inr tt).
Proof.
  intros Hwebp Hapng. unfold run.
  apply String.eqb_neq in Hwebp, Hapng. by rewrite Hwebp, Hapng.
Qed.

Lemma run_unknown_format_witness :
  run sample_world {| ct_output_file := "output.gif"; ct_input_folder := "frames";
                      ct_format_type := "gif"; ct_delay := 41; ct_quality := 90;
                      ct_lossless := false |} = ([Emit true ""], inr tt).
Proof. apply run_unknown_format; discriminate. Defined.

(** ** The thread a window starts *)

Lemma frame_delay_bounds (fps : Z) :
  0 < fps ->
  0 <= 1000 ÷ fps <= 1000 /\
  (1000 ÷ fps) * fps <= 1000 < (1000 ÷ fps + 1) * fps /\
  (1000 ÷ fps = 0 <-> 1000 < fps).
Proof.
  intros Hfps. rewrite Z.quot_div_nonneg by lia.
  pose proof (Z.div_mod 1000 fps ltac:(lia)) as Hdm.
  pose proof (Z.mod_pos_bound 1000 fps Hfps) as Hmod.
  assert (0 <= 1000 / fps) by (apply Z.div_pos; lia).
  split; [split; [done | nia] |]. split; [nia |].
  split; [nia |]. intros Hbig. by apply Z.div_small.
Qed.

(** X9: a thread that [convert_images] starts carries a checked form: a
    folder that is not empty, the stripped output name with the extension
    of its format, a format that [run] knows, a delay between 0 and 1000
    milliseconds and a quality between 0 and 100, which is 100 in lossless
    mode. *)
Theorem started_thread_is_valid (self : App) (t : ConversionThread) :
  In t (threads_started (trace (convert_images self))) ->
  input_folder self = Some (ct_input_folder t) /\ ct_input_folder t <> "" /\
  ct_output_file t = Py.strip (output_entry self) /\
  (ct_format_type t = "webp" /\ format_checked self = webp_radio /\
     Py.endswith (ct_output_file t) ".webp" = true \/
   ct_format_type t = "apng" /\ format_checked self = apng_radio /\
     Py.endswith (ct_output_file t) ".png" = true) /\
  0 <= ct_delay t <= 1000 /\ 0 <= ct_quality t <= 100 /\
  (ct_lossless t = true <-> compression_checked self = lossless_radio) /\
  (ct_lossless t = true -> ct_quality t = 100).
Proof.
  intros Hin.
  destruct (started_thread self t Hin) as (folder & fps & Hfolder & Hint & Hfps & Ht).
  assert (Hf : input_folder self = Some folder /\ folder <> "").
  { unfold folder_selected in Hfolder.
    destruct (input_folder self) as [path |]; [| done].
    destruct (String.eqb_spec path ""); [done |]. by injection Hfolder as ->. }
  revert Hin. rewrite convert_images_trace, Hfolder, Hint. cbv zeta.
  replace (0 <? fps) with true by (symmetry; apply Z.ltb_lt; lia).
  pose proof (frame_delay_bounds fps Hfps) as [Hd _].
  destruct (format_checked self) eqn:Hformat, (compression_checked self) eqn:Hcomp;
    destruct (Py.endswith _ _) eqn:Hext; try done;
    try (destruct (Py.int (quality_entry self)) as [q |]; [| done];
         destruct (Z.ltb_spec q 0); [done |];
         destruct (Z.ltb_spec 100 q); [done |]);
    simpl; (intros [<- | []]); simpl;
    (split; [tauto |]); (split; [tauto |]); (split; [done |]);
    (split; [tauto |]); (split; [done |]); (split; [lia |]); done.
Qed.

Lemma started_thread_is_valid_witness :
  ct_output_file sample_thread = Py.strip (output_entry sample_app) /\
  0 <= ct_delay sample_thread <= 1000 /\ 0 <= ct_quality sample_thread <= 100.
Proof.
  destruct (started_thread_is_valid sample_app sample_thread)
    as (_ & _ & Ho & _ & Hd & Hq & _).
  - vm_compute. left. reflexivity.
  - exact (conj Ho (conj Hd Hq)).
Defined.

(** X10: [convert_images] changes the toast of the window, and its thread
    when it starts one, and nothing else: the folder, the three entries,
    the checked buttons and the visible frames stay as they are.  The new
    toast is the last one shown. *)
Theorem convert_images_frame (self self' : App) :
  result (convert_images self) = inr self' ->
  input_folder self' = input_folder self /\
  output_entry self' = output_entry self /\
  delay_entry self' = delay_entry self /\
  quality_entry self' = quality_entry self /\
  format_checked self' = format_checked self /\
  compression_checked self' = compression_checked self /\
  quality_frame_visible self' = quality_frame_visible self /\
  compression_section_visible self' = compression_section_visible self /\
  toast self' = last (toasts (trace (convert_images self))) /\
  thread self' = match threads_started (trace (convert_images self)) with
                 | [] => thread self
                 | t :: _ => Some t
                 end.
Proof.
  unfold convert_images.
  destruct (folder_selected (input_folder self)) as [folder |];
    [| by intros [= <-]].
  destruct (frame_delay_spec (delay_entry self)) as [msg1 ->].
  destruct (image_quality_spec (quality_entry self)) as [msg2 ->].
  destruct (Py.int (delay_entry self)) as [fps |]; [| by intros [= <-]].
  destruct (0 <? fps); [| by intros [= <-]].
  destruct (format_checked self) eqn:Hf, (compression_checked self) eqn:Hc; simpl;
    destruct (Py.endswith _ _); simpl;
    try (destruct (Py.int (quality_entry self)) as [q |];
         [destruct ((q <? 0) || (100 <? q)) |]);
    intros [= <-]; simpl; rewrite ?Hf, ?Hc; repeat split; reflexivity.
Qed.

Lemma convert_images_frame_witness :
  exists self',
    result (convert_images sample_app) = inr self' /\
    delay_entry self' = "24" /\ toast self' = Some progress_toast.
Proof.
  eexists. split; [vm_compute; reflexivity |].
  edestruct (convert_images_frame sample_app) as (_ & _ & Hd & _ & _ & _ & _ & _ & Ht & _).
  - vm_compute. reflexivity.
  - split; [exact Hd | exact Ht].
Defined.

(** X11: with no folder selected, or an empty one, [convert_images] asks
    for a folder and starts nothing, whatever the form holds. *)
Theorem convert_images_needs_folder (self : App) :
  input_folder self = None \/ input_folder self = Some "" ->
  convert_images self =
  ([ShowToast (error_toast "Please select a folder containing PNG files first")],
   inr (set_toast self
          (error_toast "Please select a folder containing PNG files first"))).
Proof. unfold convert_images. by intros [-> | ->]. Qed.

Lemma convert_images_needs_folder_witness :
  threads_started (trace (convert_images (set_input_folder sample_app None))) = [].
Proof.
  rewrite (convert_images_needs_folder (set_input_folder sample_app None));
    [reflexivity | left; reflexivity].
Defined.

(** ** The delay of a frame *)

(** X12: for a thread started at the frame rate [fps], the [delay] every
    frame of an APNG is appended with is the number [100 ÷ fps]: the two
    truncations lose no more than one would.  The number is 0 exactly for
    a rate above 100. *)
Theorem apng_delay_of_frame_rate (w : World) (self : App) (fps : Z)
    (t : ConversionThread) (n : Z) :
  Py.int (delay_entry self) = Some fps ->
  In t (threads_started (trace (convert_images self))) ->
  In n (apng_delays (trace (run w t))) ->
  n = 100 ÷ fps /\ (n = 0 <-> 100 < fps).
Proof.
  intros Hint Ht Hcs.
  destruct (started_thread self t Ht) as (folder & fps' & _ & Hint' & Hfps & Heq).
  assert (fps' = fps) as -> by congruence.
  assert (Hdelay : ct_delay t = 1000 ÷ fps) by (by rewrite Heq).
  apply run_delays in Hcs.
  destruct (create_apng_delays _ _ _ _ _ Hcs) as (x & Hx & ->).
  destruct (frame_delay_bounds fps Hfps) as (Hrange & _).
  destruct (int_truediv_exact (ct_delay t) 10) as (x' & Hx' & Hq); [lia | |].
  { rewrite Hdelay, Z.abs_eq by lia. apply Z.le_lt_trans with 1000; [lia | done]. }
  assert (x' = x) as -> by congruence. rewrite Hq, Hdelay.
  rewrite !Z.quot_div_nonneg by lia.
  rewrite Z.div_div by lia.
  assert (H100 : 1000 / (fps * 10) = 100 / fps).
  { replace 1000 with (100 * 10) by done. by rewrite Z.div_mul_cancel_r by lia. }
  rewrite H100. split; [done |].
  split.
  - intros H0. destruct (Z.lt_ge_cases 100 fps) as [| Hle]; [done |].
    assert (1 <= 100 / fps) by (apply Z.div_le_lower_bound; lia). lia.
  - intros Hbig. apply Z.div_small. lia.
Qed.

Lemma apng_delay_of_frame_rate_witness : 4 = 100 ÷ 24 /\ (4 = 0 <-> 100 < 24).
Proof.
  apply (apng_delay_of_frame_rate sample_world sample_apng_app 24
           {| ct_output_file := "output.png"; ct_input_folder := "frames";
              ct_format_type := "apng"; ct_delay := 41; ct_quality := 90;
              ct_lossless := false |} 4).
  - vm_compute. reflexivity.
  - vm_compute. left. reflexivity.
  - vm_compute. left. reflexivity.
Defined.

(** X13: the delay of a started thread is the whole number of
    milliseconds below [1000 / fps]: [delay * fps <= 1000 < (delay + 1) *
    fps], so the animation is never slower than asked; the delay is 0
    exactly for a rate above 1000. *)
Theorem thread_delay_of_frame_rate (self : App) (fps : Z) (t : ConversionThread) :
  Py.int (delay_entry self) = Some fps ->
  In t (threads_started (trace (convert_images self))) ->
  ct_delay t * fps <= 1000 < (ct_delay t + 1) * fps /\
  (ct_delay t = 0 <-> 1000 < fps).
Proof.
  intros Hint Ht.
  destruct (started_thread self t Ht) as (folder & fps' & _ & Hint' & Hfps & Heq).
  assert (fps' = fps) as -> by congruence.
  assert (Hdelay : ct_delay t = 1000 ÷ fps) by (by rewrite Heq).
  rewrite Hdelay. by destruct (frame_delay_bounds fps Hfps) as (_ & ? & ?).
Qed.

Lemma thread_delay_of_frame_rate_witness :
  ct_delay sample_thread * 24 <= 1000 < (ct_delay sample_thread + 1) * 24 /\
  (ct_delay sample_thread = 0 <-> 1000 < 24).
Proof.
  apply (thread_delay_of_frame_rate sample_app 24 sample_thread).
  - vm_compute. reflexivity.
  - vm_compute. left. reflexivity.
Defined.

(** ** The two toggles *)

(** X14: the name [toggle_format] writes passes the extension check: after
    it, [convert_images] shows neither toast of that check, and with a
    folder, a frame rate and a quality that pass, it starts a thread that
    writes the default name of the checked format. *)
Theorem toggle_format_passes_extension_check (self : App) :
  let tr := trace (convert_images (toggle_format self)) in
  ~ In (error_toast "Output file name must end with .webp") (toasts tr) /\
  ~ In (error_toast "Output file name must end with .png") (toasts tr) /\
  (forall t, In t (threads_started tr) ->
     ct_output_file t = match format_checked self with
                        | webp_radio => "output.webp"
                        | apng_radio => "output.png"
                        end).
Proof.
  intros tr. subst tr.
  assert (Hfmt : format_checked (toggle_format self) = format_checked self).
  { unfold toggle_format. by destruct (format_checked self). }
  assert (Hout : Py.strip (output_entry (toggle_format self)) =
                 match format_checked self with
                 | webp_radio => "output.webp"
                 | apng_radio => "output.png"
                 end).
  { unfold toggle_format. by destruct (format_checked self). }
  rewrite convert_images_trace. cbv zeta. rewrite Hfmt, Hout.
  generalize (toggle_format self). intros s.
  assert (Hno : forall (ev : event) (l : list event) (msg : string),
            ~ In (error_toast msg) (toasts l) ->
            match ev with ShowToast t => t <> error_toast msg | _ => True end ->
            ~ In (error_toast msg) (toasts (ev :: l))).
  { intros ev l msg Hl Hev. destruct ev; simpl; try done. intros [Heq | Hin]; [by apply Hev | by apply Hl]. }
  assert (Hdiff : forall msg msg', msg <> msg' -> error_toast msg <> error_toast msg').
  { intros msg msg' Hne Heq. by injection Heq. }
  assert (Hprog : forall msg, progress_toast <> error_toast msg) by done.
  destruct (folder_selected _);
    [destruct (Py.int (delay_entry s)) as [fps |]; [destruct (0 <? fps) |] |];
    [destruct (format_checked self);
       change (Py.endswith "output.webp" ".webp") with true;
       change (Py.endswith "output.png" ".png") with true; cbv iota;
       (destruct (compression_checked s);
          [destruct (Py.int (quality_entry s)) as [q |];
             [destruct ((q <? 0) || (100 <? q)) |] |]) | ..];
    (split; [| split];
       [repeat (apply Hno; [| first [exact I | apply Hprog | by apply Hdiff]]);
        intros [] ..
       | first [done | by intros t [<- | []]]]).
Qed.

(** X15: [toggle_format] run twice does what it does once; it replaces
    whatever name the output entry held and leaves the folder, the other
    two entries, the checked buttons, the toast and the thread alone. *)
Theorem toggle_format_idempotent (self : App) (text : string) :
  toggle_format (toggle_format self) = toggle_format self /\
  output_entry (toggle_format (set_output_entry self text)) =
    output_entry (toggle_format self) /\
  input_folder (toggle_format self) = input_folder self /\
  delay_entry (toggle_format self) = delay_entry self /\
  quality_entry (toggle_format self) = quality_entry self /\
  format_checked (toggle_format self) = format_checked self /\
  compression_checked (toggle_format self) = compression_checked self /\
  toast (toggle_format self) = toast self /\
  thread (toggle_format self) = thread self.
Proof.
  unfold toggle_format, set_output_entry. simpl.
  destruct (format_checked self) eqn:Hf; simpl; rewrite ?Hf; simpl;
    repeat split; reflexivity.
Qed.

(** X16: [toggle_compression] shows the quality frame exactly in lossy
    mode, [toggle_format] exactly for WebP, and each ignores what the
    other looks at: in lossless WebP the frame is shown or hidden by
    whichever ran last, and for APNG in lossy mode as well. *)
Theorem toggles_disagree (self : App) :
  (quality_frame_visible (toggle_compression self) = true <->
   compression_checked self = lossy_radio) /\
  (quality_frame_visible (toggle_format self) = true <->
   format_checked self = webp_radio) /\
  (let s := set_compression_checked (set_format_checked self webp_radio)
                                    lossless_radio in
   quality_frame_visible (toggle_format (toggle_compression s)) = true /\
   quality_frame_visible (toggle_compression (toggle_format s)) = false) /\
  (let s := set_compression_checked (set_format_checked self apng_radio)
                                    lossy_radio in
   quality_frame_visible (toggle_format (toggle_compression s)) = false /\
   quality_frame_visible (toggle_compression (toggle_format s)) = true).
Proof.
  unfold toggle_compression, toggle_format. simpl.
  split; [destruct (compression_checked self); simpl; split; done |].
  split; [destruct (format_checked self); simpl; split; done |].
  done.
Qed.

(** ** The folder controls *)

(** X17: a cancelled dialog changes nothing.  A chosen folder is stored
    and shown with the number of files [glob] finds in it; the preview is
    shown exactly when there is one, and it is the file whose image
    [create_webp] saves first and whose frame [create_apng] saves first. *)
Theorem select_folder_preview (w : World) (self : Window) (path : string) :
  select_folder w self "" = self /\
  (path <> "" ->
   let self' := select_folder w self path in
   input_folder (form self') = Some path /\ folder_path self' = path /\
   preview_label self' =
     "Folder: " +:+ Py.basename path +:+ newline +:+ "Found "
     +:+ Py.str_len (length (glob w (Py.path_join path "*.png"))) +:+ " PNG files" /\
   (image_preview_visible self' = true <-> glob w (Py.path_join path "*.png") <> []) /\
   (forall first o params output_file delay quality lossless,
      In (ImageSave first o params)
         (trace (create_webp w output_file path delay quality lossless)) ->
      image_preview_visible self' = true /\
      image_preview self' = Some (filename first)) /\
   (forall frames o output_file delay,
      In (ApngSave frames o) (trace (create_apng w output_file path delay)) ->
      image_preview_visible self' = true /\
      image_preview self' = fst <$> head frames)).
Proof.
  split; [done |]. intros Hpath self'. subst self'. unfold select_folder.
  apply String.eqb_neq in Hpath. rewrite Hpath. unfold show_folder.
  pose proof (sorted_Permutation (glob w (Py.path_join path "*.png"))) as Hperm.
  pose proof (sorted_nil (glob w (Py.path_join path "*.png"))) as Hnil.
  rewrite <- (Permutation_length Hperm).
  split; [by destruct (Py.sorted _) |]. split; [by destruct (Py.sorted _) |].
  split; [by destruct (Py.sorted _) |].
  split; [| split].
  - destruct (Py.sorted _) as [| f files]; simpl.
    + split; [done |]. intros H. exfalso. apply H. by apply Hnil.
    + split; [| done]. intros _ H. by apply Hnil in H.
  - intros first o params output_file delay quality lossless Hin.
    destruct (create_webp_save_event _ _ _ _ _ _ _ _ _ Hin) as (rest & Hmap & _).
    rewrite <- Hmap. done.
  - intros frames o output_file delay Hin.
    destruct (create_apng_save_event _ _ _ _ _ _ Hin) as (x & _ & -> & _).
    assert (Hne : glob w (Py.path_join path "*.png") <> []).
    { intros Hempty. by rewrite (create_apng_empty _ _ _ _ Hempty) in Hin. }
    destruct (Py.sorted _) as [| f files]; [| done].
    exfalso. apply Hne. by apply Hnil.
Qed.

(** X18: [clear_folder] forgets the folder and hides the preview, whatever
    was selected before, and after it [convert_images] asks for a folder
    and starts nothing. *)
Theorem clear_folder_resets (w : World) (self : Window) (path : string) :
  clear_folder (select_folder w self path) = clear_folder self /\
  input_folder (form (clear_folder self)) = None /\
  image_preview_visible (clear_folder self) = false /\
  toasts (trace (convert_images (form (clear_folder self)))) =
    [error_toast "Please select a folder containing PNG files first"] /\
  threads_started (trace (convert_images (form (clear_folder self)))) = [].
Proof.
  split; [| done].
  unfold select_folder, show_folder, clear_folder.
  destruct (String.eqb path ""); [done |]. by destruct (Py.sorted _).
Qed.

(** X19: of the dropped URLs only the first counts.  A folder is taken as
    if the dialog had returned it; anything else leaves the window as it
    is and shows the error box. *)
Theorem dropEvent_first_url (w : World) (isdir : string -> bool) (self : Window)
    (url : string) (others : list string) :
  dropEvent w isdir self [] = (self, []) /\
  dropEvent w isdir self (url :: others) = dropEvent w isdir self [url] /\
  (isdir url = false ->
     dropEvent w isdir self (url :: others) =
     (self, [{| box_title := "Error";
                box_text := "Please drag and drop a folder, not a file" |}])) /\
  (isdir url = true -> url <> "" ->
     dropEvent w isdir self (url :: others) = (select_folder w self url, [])).
Proof.
  split; [done |]. split; [done |]. unfold dropEvent, select_folder.
  split; [by intros -> |]. intros -> Hurl. apply String.eqb_neq in Hurl. by rewrite Hurl.
Qed.

(** ** From the worker thread back to the window *)

Lemma run_signal (conv : M unit) :
  emitted (trace conv) = [] ->
  emitted (trace (try_except (do _ <- conv ; tell (Emit true ""))
                             (fun e => tell (Emit false (str e))))) =
  [signal_of (result conv)].
Proof.
  intros Hconv. rewrite trace_try_except, result_bind, trace_bind.
  unfold emitted in *. rewrite !omap_app, Hconv.
  by destruct (result conv) as [e | []].
Qed.

Lemma deliver_signal (later : App) (outcome : exn + unit) :
  toasts (trace (deliver later [signal_of outcome])) = [report_toast later outcome].
Proof.
  destruct outcome as [e | []]; simpl; unfold conversion_finished, saved_toast; simpl.
  - reflexivity.
  - by destruct (format_checked later).
Qed.

(** X20: the one signal of a thread, handed to [conversion_finished],
    shows one toast: for a conversion that raised [e], the error toast
    with [str(e)]; for one that returned, the success toast, which names
    the format and the output name of the window at that moment, not
    those of the thread. *)
Theorem conversion_report (w : World) (self : ConversionThread) (later : App) :
  let shown := toasts (trace (deliver later (emitted (trace (run w self))))) in
  (ct_format_type self = "webp" ->
     shown = [report_toast later
                (result (create_webp w (ct_output_file self) (ct_input_folder self)
                                     (ct_delay self) (ct_quality self)
                                     (ct_lossless self)))]) /\
  (ct_format_type self = "apng" ->
     shown = [report_toast later
                (result (create_apng w (ct_output_file self) (ct_input_folder self)
                                     (ct_delay self)))]).
Proof.
  intros shown. subst shown. unfold run. split; intros ->; simpl.
  - rewrite run_signal; [apply deliver_signal |].
    apply library_trace_emitted, create_webp_library.
  - rewrite run_signal; [apply deliver_signal |].
    apply library_trace_emitted, create_apng_library.
Qed.



(** ** Where the frames come from *)




(** ** The frames of the animation and the files of the folder *)

